(** * Nokia SR Linux node driver (nodes/srl/srl.go): a shallow embedding

    The Go driver is embedded function by function.  Go strings and byte
    slices are Rocq strings (sequences of 8-bit characters), Go maps are
    finite maps that may be nil, errors are their messages, and the
    external collaborators (container runtime, host file system,
    certificate package, random source) are interfaces acting on an
    abstract external world. *)

From Stdlib Require Import NArith Ascii String.
From Stdlib.Strings Require Import Byte.
From stdpp Require Import base option list gmap strings.

Local Open Scope N_scope.

(** ** Characters that cannot be written inside a literal *)

Definition quote : ascii := "034"%char.
Definition dq : string := String quote EmptyString.
Definition nl : string := String "010"%char EmptyString.

(** ** Go values *)

(** A Go [error] is modelled by its message; [None] is the nil error. *)
Definition error := string.

(** fmt's rendering of an error operand under the verb v. *)
Definition fmt_v (e : option error) : string :=
  match e with
  | Some m => m
  | None => "<nil>"
  end.

(** A Go [map[string]string]: [None] is the nil map. *)
Definition GoMap := option (gmap string string).

(** Reading a Go map: a missing key (or a nil map) yields the zero value. *)
Definition map_index (m : gmap string string) (k : string) : string :=
  default EmptyString (m !! k).

(** What a Go function call produces: it returns, or it panics. *)
Inductive Outcome (A : Type) : Type :=
| Ret (a : A)
| Panic (msg : string).
Arguments Ret {A} a.
Arguments Panic {A} msg.

(** ** strings / bytes helpers *)

Module Strings.

(** strings.HasPrefix *)
Fixpoint HasPrefix (s p : string) {struct p} : bool :=
  match p, s with
  | EmptyString, _ => true
  | String _ _, EmptyString => false
  | String b p', String a s' => if decide (a = b) then HasPrefix s' p' else false
  end.

(** bytes.Contains / strings.Contains *)
Fixpoint Contains (s sub : string) : bool :=
  if HasPrefix s sub then true
  else match s with
       | EmptyString => false
       | String _ s' => Contains s' sub
       end.

(** strings.Join *)
Definition Join (elems : list string) (sep : string) : string :=
  String.concat sep elems.

(** The character [c] occurs nowhere in [s]. *)
Fixpoint lacks (c : ascii) (s : string) : bool :=
  match s with
  | EmptyString => true
  | String a s' => if decide (a = c) then false else lacks c s'
  end.

(** Number of positions of [s] at which [sub] starts. *)
Fixpoint Count (s sub : string) : nat :=
  ((if HasPrefix s sub then 1 else 0) +
   match s with
   | EmptyString => 0
   | String _ s' => Count s' sub
   end)%nat.

End Strings.

(** ** types.NodeConfig *)

(** Modelled from the spec: the NodeConfig record of the types package
    (identity, node type and image, runtime shaping, provisioning inputs,
    certificate and key), which this file only uses.  The record has the
    fields srl.go reads or writes, under their Go names, with the types
    their uses there give them. *)

Record Extras := mkExtras {
  SRLAgents : list string
}.

Record NodeConfig := mkNodeConfig {
  ShortName : string;
  LongName : string;
  Fqdn : string;
  LabDir : string;
  Index : N;
  NodeType : string;
  Image : string;
  StartupConfig : string;
  License : string;
  Cmd : string;
  Env : GoMap;
  User : string;
  Sysctls : GoMap;
  Binds : list string;
  TLSCert : string;
  TLSKey : string;
  TLSAnchor : string;
  NodeExtras : option Extras
}.

Definition set_NodeType (v : string) (c : NodeConfig) : NodeConfig :=
  mkNodeConfig (ShortName c) (LongName c) (Fqdn c) (LabDir c) (Index c) v
    (Image c) (StartupConfig c) (License c) (Cmd c) (Env c) (User c)
    (Sysctls c) (Binds c) (TLSCert c) (TLSKey c) (TLSAnchor c) (NodeExtras c).

Definition set_Cmd (v : string) (c : NodeConfig) : NodeConfig :=
  mkNodeConfig (ShortName c) (LongName c) (Fqdn c) (LabDir c) (Index c)
    (NodeType c) (Image c) (StartupConfig c) (License c) v (Env c) (User c)
    (Sysctls c) (Binds c) (TLSCert c) (TLSKey c) (TLSAnchor c) (NodeExtras c).

Definition set_Env (v : GoMap) (c : NodeConfig) : NodeConfig :=
  mkNodeConfig (ShortName c) (LongName c) (Fqdn c) (LabDir c) (Index c)
    (NodeType c) (Image c) (StartupConfig c) (License c) (Cmd c) v (User c)
    (Sysctls c) (Binds c) (TLSCert c) (TLSKey c) (TLSAnchor c) (NodeExtras c).

Definition set_User (v : string) (c : NodeConfig) : NodeConfig :=
  mkNodeConfig (ShortName c) (LongName c) (Fqdn c) (LabDir c) (Index c)
    (NodeType c) (Image c) (StartupConfig c) (License c) (Cmd c) (Env c) v
    (Sysctls c) (Binds c) (TLSCert c) (TLSKey c) (TLSAnchor c) (NodeExtras c).

Definition set_Sysctls (v : GoMap) (c : NodeConfig) : NodeConfig :=
  mkNodeConfig (ShortName c) (LongName c) (Fqdn c) (LabDir c) (Index c)
    (NodeType c) (Image c) (StartupConfig c) (License c) (Cmd c) (Env c)
    (User c) v (Binds c) (TLSCert c) (TLSKey c) (TLSAnchor c) (NodeExtras c).

Definition set_Binds (v : list string) (c : NodeConfig) : NodeConfig :=
  mkNodeConfig (ShortName c) (LongName c) (Fqdn c) (LabDir c) (Index c)
    (NodeType c) (Image c) (StartupConfig c) (License c) (Cmd c) (Env c)
    (User c) (Sysctls c) v (TLSCert c) (TLSKey c) (TLSAnchor c) (NodeExtras c).

Definition set_TLSCert (v : string) (c : NodeConfig) : NodeConfig :=
  mkNodeConfig (ShortName c) (LongName c) (Fqdn c) (LabDir c) (Index c)
    (NodeType c) (Image c) (StartupConfig c) (License c) (Cmd c) (Env c)
    (User c) (Sysctls c) (Binds c) v (TLSKey c) (TLSAnchor c) (NodeExtras c).

Definition set_TLSKey (v : string) (c : NodeConfig) : NodeConfig :=
  mkNodeConfig (ShortName c) (LongName c) (Fqdn c) (LabDir c) (Index c)
    (NodeType c) (Image c) (StartupConfig c) (License c) (Cmd c) (Env c)
    (User c) (Sysctls c) (Binds c) (TLSCert c) v (TLSAnchor c) (NodeExtras c).

(** ** Package-level constants and variables *)

Definition srlDefaultType : string := "ixrd2".

(** time.Duration values, in nanoseconds. *)
Definition Second : N := 1000000000.
Definition Minute : N := 60 * Second.
Definition readyTimeout : N := Minute * 2.
Definition retryTimer : N := Second.

Definition srlSysctl_entries : list (string * string) :=
  [ ("net.ipv4.ip_forward", "0");
    ("net.ipv6.conf.all.disable_ipv6", "0");
    ("net.ipv6.conf.all.accept_dad", "0");
    ("net.ipv6.conf.default.accept_dad", "0");
    ("net.ipv6.conf.all.autoconf", "0");
    ("net.ipv6.conf.default.autoconf", "0") ].

Definition srlSysctl : gmap string string := list_to_map srlSysctl_entries.

Definition srlTypes_entries : list (string * string) :=
  [ ("ixr6", "7250IXR6.yml");
    ("ixr10", "7250IXR10.yml");
    ("ixrd1", "7220IXRD1.yml");
    ("ixrd2", "7220IXRD2.yml");
    ("ixrd3", "7220IXRD3.yml");
    ("ixrh2", "7220IXRH2.yml");
    ("ixrh3", "7220IXRH3.yml") ].

Definition srlTypes : gmap string string := list_to_map srlTypes_entries.

Definition srlEnv : GoMap := Some {[ "SRLINUX" := "1" ]}.

Definition srlCmd : string :=
  "sudo bash -c 'touch /.dockerenv && /opt/srlinux/bin/sr_linux'".

(** A [for k, v := range m] loop visits the entries of [m] in an order the
    language leaves unspecified: any arrangement of its entries. *)
Definition range_order (m : gmap string string) (order : list (string * string)) : Prop :=
  order ≡ₚ map_to_list m.

(** ** context.Context and the clock *)

(** A context is described by the instant (in nanoseconds on the model's
    clock) at which its Done channel becomes ready; [None] is a context that
    is never cancelled. *)
Definition Context := option N.

Definition ctx_done (ctx : Context) (now : N) : bool :=
  match ctx with
  | Some t => t <=? now
  | None => false
  end.

(** context.WithTimeout(parent, d), called at instant [now]. *)
Definition WithTimeout (parent : Context) (d now : N) : Context :=
  match parent with
  | Some t => Some (N.min t (now + d))
  | None => Some (now + d)
  end.

(** ** Logging (logrus): calls are recorded, not rendered *)

Inductive Level := DebugLevel | InfoLevel | ErrorLevel.

Record LogEntry := mkLog {
  log_level : Level;
  log_format : string;
  log_args : list string
}.

(** ** The container runtime (runtime.ContainerRuntime) *)

(** What one Exec call hands back, and how long it took. *)
Record ExecReply := mkReply {
  stdout : string;
  stderr : string;
  exec_err : option error;
  elapsed : N
}.

(** [W] is the state of everything outside the driver (containers, host
    file system, random source); [H] is a runtime handle. *)
Class ContainerRuntime (W H : Type) := {
  rt_Exec : H → N → Context → string → list string → W → W * ExecReply;
  rt_CreateContainer : H → Context → NodeConfig → W → W * (string * option error);
  rt_DeleteContainer : H → Context → string → W → W * option error
}.

(** ** The cert package *)

(** Modelled from the spec: the cert package's certificate material
    (certificate, private key, signing request), of which the driver reads
    the three byte-sequence fields; its zero value has all three empty. *)
Record Certificates := mkCerts {
  Csr : string;
  Cert : string;
  Key : string
}.

Record CertInput := mkCertInput {
  ci_Name : string;
  ci_LongName : string;
  ci_Fqdn : string;
  ci_Prefix : string
}.

Class CertPkg (W CsrTpl : Type) := {
  (** template.New("node-cert").Parse(cert.NodeCSRTempl) *)
  parse_NodeCSRTempl : CsrTpl * option error;
  RetrieveNodeCertData : NodeConfig → string → W → W * (Certificates * option error);
  GenerateCert : string → string → CsrTpl → CertInput → string → W →
                 W * (Certificates * option error)
}.

(** ** Host side: utils, os, path, path/filepath, crypto/rand, embedded
    topology templates, NodeConfig.GenerateConfig *)

Class Host (W Tpl File : Type) := {
  filepath_Join : list string → string;
  filepath_Base : string → string;
  path_Join : list string → string;
  MergeStringMaps : GoMap → GoMap → GoMap;
  CreateDirectory : string → N → W → W;
  CopyFile : string → string → N → W → W * option error;
  FileExists : string → W → bool;
  os_ReadFile : string → W → W * (string * option error);
  os_Create : string → W → W * (File + error);
  file_Close : File → W → W;
  (** template.ParseFS(topologies, name) *)
  topologies_ParseFS : string → Tpl + error;
  (** tpl.Execute(f, mac{MAC: m}) *)
  tpl_Execute : Tpl → File → string → W → W * option error;
  (** rand.Read on a buffer of the given length: the bytes it stored *)
  rand_Read : nat → W → W * (list byte * option error);
  GenerateConfig : NodeConfig → string → string → W → W * option error
}.

(** ** The driver's view of the world *)

Record World (W : Type) := mkWorld {
  ext : W;                          (* everything outside the driver *)
  now : N;                          (* the clock *)
  logs : list LogEntry;             (* log calls made so far, oldest first *)
  execs : list (string * list string) (* Exec calls made so far, oldest first *)
}.
Arguments mkWorld {W}.
Arguments ext {W}.
Arguments now {W}.
Arguments logs {W}.
Arguments execs {W}.

Definition set_ext {W} (e : W) (w : World W) : World W :=
  mkWorld e (now w) (logs w) (execs w).

Definition logf {W} (l : Level) (format : string) (args : list string)
    (w : World W) : World W :=
  mkWorld (ext w) (now w) (logs w ++ [mkLog l format args]) (execs w).

(** time.Sleep(d) *)
Definition Sleep {W} (d : N) (w : World W) : World W :=
  mkWorld (ext w) (now w + d) (logs w) (execs w).

(** Runs a host-side operation on the external world. *)
Definition host {W A} (op : W → W * A) (w : World W) : World W * A :=
  let '(e, a) := op (ext w) in (set_ext e w, a).

Definition host_ {W} (op : W → W) (w : World W) : World W :=
  set_ext (op (ext w)) w.

(** The part of a step's result that the world outside can see. *)
Definition outside {W} (r : World W * option error) : W * option error := (ext r.1, r.2).

(** ** type srl struct *)

Record srl (H : Type) := mkSrl {
  cfg : NodeConfig;   (* the pointed-to configuration, shared with the caller *)
  runtime : H
}.
Arguments mkSrl {H}.
Arguments cfg {H}.
Arguments runtime {H}.

Definition upd_cfg {H} (f : NodeConfig → NodeConfig) (s : srl H) : srl H :=
  mkSrl (f (cfg s)) (runtime s).

(** nodes.NodeOption: a function applied to the node under construction. *)
Definition NodeOption (H : Type) := srl H → srl H.

(** func (s *srl) WithRuntime(r runtime.ContainerRuntime) *)
Definition WithRuntime {H} (r : H) : NodeOption H := fun s => mkSrl (cfg s) r.

(** func (s *srl) Config() *types.NodeConfig *)
Definition Config {H} (s : srl H) : NodeConfig := cfg s.

(** func (s *srl) GetRuntime() runtime.ContainerRuntime *)
Definition GetRuntime {H} (s : srl H) : H := runtime s.

(** s.runtime.Exec(ctx, name, cmd): the call is recorded and takes time. *)
Definition Exec {W H} `{ContainerRuntime W H} (h : H) (ctx : Context)
    (name : string) (cmd : list string) (w : World W) : World W * ExecReply :=
  let '(e, r) := rt_Exec h (now w) ctx name cmd (ext w) in
  (mkWorld e (now w + elapsed r) (logs w) (execs w ++ [(name, cmd)]), r).

(** ** Init *)

Definition bind_outcome {A B} (x : Outcome A) (k : A → Outcome B) : Outcome B :=
  match x with
  | Ret a => k a
  | Panic m => Panic m
  end.

(** [m[k] = v]: a write to a nil map panics. *)
Definition map_assign (m : GoMap) (k v : string) : Outcome GoMap :=
  match m with
  | Some g => Ret (Some (<[k := v]> g))
  | None => Panic "assignment to entry in nil map"
  end.

(** for k, v := range entries { m[k] = v } *)
Fixpoint assign_range (entries : list (string * string)) (m : GoMap) : Outcome GoMap :=
  match entries with
  | [] => Ret m
  | (k, v) :: rest => bind_outcome (map_assign m k v) (assign_range rest)
  end.

(** keys := make([]string, 0, n); for key := range m { keys = append(keys, key) } *)
Definition collect_keys (order : list (string * string)) : list string :=
  foldl (fun keys kv => keys ++ [kv.1]) [] order.

Definition wrong_node_type (nodeType : string) (keys : list string) : error :=
  "wrong node type. '" +:+ nodeType +:+ "' doesn't exist. should be any of "
  +:+ Strings.Join keys ", ".

(** for _, o := range opts { o(s) } *)
Definition apply_options {H} (opts : list (NodeOption H)) (s : srl H) : srl H :=
  foldl (fun s o => o s) s opts.

Section Init.
Context {W Tpl File H : Type} `{!Host W Tpl File}.

(** The configuration Init works on once the options have run. *)
Definition seen (s : srl H) (cfg0 : NodeConfig) (opts : list (NodeOption H)) : NodeConfig :=
  cfg (apply_options opts (mkSrl cfg0 (runtime s))).

(** func (s *srl) Init(cfg *types.NodeConfig, opts ...nodes.NodeOption) error

    [typesOrder] and [sysctlOrder] are the orders in which this run's two
    range loops visit [srlTypes] and [srlSysctl]. *)
Definition Init (s : srl H) (cfg0 : NodeConfig) (opts : list (NodeOption H))
    (typesOrder sysctlOrder : list (string * string))
    : Outcome (srl H * option error) :=
  let s := mkSrl cfg0 (runtime s) in
  let s := apply_options opts s in
  let s := if decide (NodeType (cfg s) = EmptyString)
           then upd_cfg (set_NodeType srlDefaultType) s else s in
  match srlTypes !! NodeType (cfg s) with
  | None =>
      let keys := collect_keys typesOrder in
      Ret (s, Some (wrong_node_type (NodeType (cfg s)) keys))
  | Some _ =>
      let s := upd_cfg (set_Cmd srlCmd) s in
      let s := upd_cfg (fun c => set_Env (MergeStringMaps srlEnv (Env c)) c) s in
      let s := if decide (User (cfg s) = EmptyString)
               then upd_cfg (set_User "0:0") s else s in
      bind_outcome (assign_range sysctlOrder (Sysctls (cfg s))) (fun m =>
      let s := upd_cfg (set_Sysctls m) s in
      let s := if decide (License (cfg s) = EmptyString) then s
               else upd_cfg (fun c => set_Binds (Binds c ++
                      [filepath_Join [LabDir c; "license.key"]
                       +:+ ":/opt/srlinux/etc/license.key:ro"]) c) s in
      let cfgPath := filepath_Join [LabDir (cfg s); "config"] in
      let s := upd_cfg (fun c => set_Binds (Binds c ++
                      [cfgPath +:+ ":/etc/opt/srlinux/:rw"]) c) s in
      let topoPath := filepath_Join [LabDir (cfg s); "topology.yml"] in
      let s := upd_cfg (fun c => set_Binds (Binds c ++
                      [topoPath +:+ ":/tmp/topology.yml:ro"]) c) s in
      Ret (s, None))
  end.

End Init.

(** ** text/template, for the constructs the driver's templates use

    [{{ .Field }}], [{{ if .Field }} ... {{ else }} ... {{ end }}] and the
    trim markers [{{- ] and [ -}}]. *)

Module Template.

Local Set Warnings "-register-all".

Inductive Token :=
| TText (s : string)
| TField (f : string)
| TIf (f : string)
| TElse
| TEnd.

Inductive Node :=
| NText (s : string)
| NField (f : string)
| NIf (f : string) (th el : list Node).

Definition is_space (c : ascii) : bool :=
  match c with
  | " "%char | "009"%char | "010"%char | "013"%char => true
  | _ => false
  end.

Fixpoint TrimLeft (s : string) : string :=
  match s with
  | String c s' => if is_space c then TrimLeft s' else s
  | EmptyString => s
  end.

Definition TrimRight (s : string) : string :=
  String.rev (TrimLeft (String.rev s)).

Definition TrimSpace (s : string) : string := TrimRight (TrimLeft s).

Fixpoint drop (n : nat) (s : string) : string :=
  match n, s with
  | S n', String _ s' => drop n' s'
  | _, _ => s
  end.

Definition HasSuffix (s p : string) : bool :=
  Strings.HasPrefix (String.rev s) (String.rev p).

(** strings.Cut: the text before and after the first [d] in [s]. *)
Fixpoint Cut (s d : string) : option (string * string) :=
  if Strings.HasPrefix s d then Some (EmptyString, drop (String.length d) s)
  else match s with
       | EmptyString => None
       | String a s' =>
           match Cut s' d with
           | Some (before, after) => Some (String a before, after)
           | None => None
           end
       end.

(** Reads the inside of an action. *)
Definition classify (body : string) : option Token :=
  if decide (body = "else") then Some TElse
  else if decide (body = "end") then Some TEnd
  else if Strings.HasPrefix body "if " then
    match TrimLeft (drop 3 body) with
    | String "."%char f => Some (TIf f)
    | _ => None
    end
  else match body with
       | String "."%char f => Some (TField f)
       | _ => None
       end.

Fixpoint lex (fuel : nat) (s : string) : option (list Token) :=
  match fuel with
  | O => None
  | S fuel' =>
      match Cut s "{{" with
      | None => Some [TText s]
      | Some (txt, rest) =>
          match Cut rest "}}" with
          | None => None
          | Some (act, rest') =>
              let trimL := Strings.HasPrefix act "- " in
              let trimR := HasSuffix act " -" in
              let act := if trimL then drop 1 act else act in
              let act := if trimR then String.rev (drop 1 (String.rev act)) else act in
              match classify (TrimSpace act),
                    lex fuel' (if trimR then TrimLeft rest' else rest') with
              | Some tok, Some toks =>
                  Some (TText (if trimL then TrimRight txt else txt) :: tok :: toks)
              | _, _ => None
              end
          end
      end
  end.

(** Builds the tree up to the next [else], [end] or the end of input and
    returns what is left, starting at that delimiter. *)
Fixpoint parse_nodes (fuel : nat) (ts : list Token) : option (list Node * list Token) :=
  match fuel with
  | O => None
  | S fuel' =>
      match ts with
      | [] => Some ([], [])
      | TElse :: _ | TEnd :: _ => Some ([], ts)
      | TText s :: r =>
          match parse_nodes fuel' r with
          | Some (ns, rest) => Some (NText s :: ns, rest)
          | None => None
          end
      | TField f :: r =>
          match parse_nodes fuel' r with
          | Some (ns, rest) => Some (NField f :: ns, rest)
          | None => None
          end
      | TIf f :: r =>
          match parse_nodes fuel' r with
          | Some (th, TElse :: r1) =>
              match parse_nodes fuel' r1 with
              | Some (el, TEnd :: r2) =>
                  match parse_nodes fuel' r2 with
                  | Some (ns, rest) => Some (NIf f th el :: ns, rest)
                  | None => None
                  end
              | _ => None
              end
          | Some (th, TEnd :: r1) =>
              match parse_nodes fuel' r1 with
              | Some (ns, rest) => Some (NIf f th [] :: ns, rest)
              | None => None
              end
          | _ => None
          end
      end
  end.

(** template.New(name).Parse(text) *)
Definition Parse (text : string) : option (list Node) :=
  match lex (S (String.length text)) text with
  | Some ts =>
      match parse_nodes (S (length ts)) ts with
      | Some (ns, []) => Some ns
      | _ => None
      end
  | None => None
  end.

(** The string-valued fields of the data a template is executed on. *)
Definition field (name : string) (c : NodeConfig) : option string :=
  if String.eqb name "TLSKey" then Some (TLSKey c)
  else if String.eqb name "TLSCert" then Some (TLSCert c)
  else if String.eqb name "TLSAnchor" then Some (TLSAnchor c)
  else if String.eqb name "ShortName" then Some (ShortName c)
  else if String.eqb name "LongName" then Some (LongName c)
  else if String.eqb name "Fqdn" then Some (Fqdn c)
  else if String.eqb name "LabDir" then Some (LabDir c)
  else if String.eqb name "NodeType" then Some (NodeType c)
  else if String.eqb name "Image" then Some (Image c)
  else None.

(** A string is true in an [if] when it is not empty. *)
Definition truth (v : string) : bool :=
  match v with
  | EmptyString => false
  | String _ _ => true
  end.

Definition no_field (f : string) : error :=
  "template: srl-tls-profile: can't evaluate field " +:+ f.

(** Output written, and the error that stopped the execution if any.
    Values are printed as they are: text/template does no escaping. *)
Fixpoint exec_node (c : NodeConfig) (n : Node) : string * option error :=
  match n with
  | NText s => (s, None)
  | NField f =>
      match field f c with
      | Some v => (v, None)
      | None => (EmptyString, Some (no_field f))
      end
  | NIf f th el =>
      match field f c with
      | Some v =>
          (fix seq (ns : list Node) : string * option error :=
             match ns with
             | [] => (EmptyString, None)
             | n :: r =>
                 match exec_node c n with
                 | (out, None) => let '(out', e) := seq r in (out +:+ out', e)
                 | (out, Some e) => (out, Some e)
                 end
             end) (if truth v then th else el)
      | None => (EmptyString, Some (no_field f))
      end
  end.

(** tpl.Execute(buf, data) on an empty buffer: the buffer's content
    afterwards, and the error. *)
Fixpoint Execute (tpl : list Node) (c : NodeConfig) : string * option error :=
  match tpl with
  | [] => (EmptyString, None)
  | n :: r =>
      match exec_node c n with
      | (out, None) => let '(out', e) := Execute r c in (out +:+ out', e)
      | (out, Some e) => (out, Some e)
      end
  end.

End Template.

(** additional config that clab adds on top of the factory config *)
Definition srlConfigCmdsTpl : string := String.concat nl [
  "set / system tls server-profile clab-profile";
  "set / system tls server-profile clab-profile key " +:+ dq +:+ "{{ .TLSKey }}" +:+ dq;
  "set / system tls server-profile clab-profile certificate " +:+ dq +:+ "{{ .TLSCert }}" +:+ dq;
  "{{- if .TLSAnchor }}";
  "set / system tls server-profile clab-profile authenticate-client true";
  "set / system tls server-profile clab-profile trust-anchor " +:+ dq +:+ "{{ .TLSAnchor }}" +:+ dq;
  "{{- else }}";
  "set / system tls server-profile clab-profile authenticate-client false";
  "{{- end }}";
  "set / system gnmi-server admin-state enable network-instance mgmt admin-state enable tls-profile clab-profile";
  "set / system json-rpc-server admin-state enable network-instance mgmt http admin-state enable";
  "set / system json-rpc-server admin-state enable network-instance mgmt https admin-state enable tls-profile clab-profile";
  "set / system lldp admin-state enable";
  "set / system aaa authentication idle-timeout 7200";
  "commit save" ].

(** srlCfgTpl, _ = template.New("srl-tls-profile").Parse(srlConfigCmdsTpl) *)
Definition srlCfgTpl : list Template.Node :=
  default [] (Template.Parse srlConfigCmdsTpl).



(** The text the template yields, written out: the fixed lines around the
    three values and the branch chosen by the trust anchor. *)
Definition tls_line (rest : string) : string :=
  "set / system tls server-profile clab-profile" +:+ rest.

Definition services_tail : string := String.concat nl [
  EmptyString;
  "set / system gnmi-server admin-state enable network-instance mgmt admin-state enable tls-profile clab-profile";
  "set / system json-rpc-server admin-state enable network-instance mgmt http admin-state enable";
  "set / system json-rpc-server admin-state enable network-instance mgmt https admin-state enable tls-profile clab-profile";
  "set / system lldp admin-state enable";
  "set / system aaa authentication idle-timeout 7200";
  "commit save" ].

Definition anchor_branch (anchor : string) : string :=
  match anchor with
  | EmptyString => nl +:+ tls_line " authenticate-client false"
  | String _ _ =>
      nl +:+ tls_line " authenticate-client true" +:+ nl
      +:+ tls_line " trust-anchor " +:+ dq +:+ anchor +:+ dq
  end.

Definition rendered (c : NodeConfig) : string :=
  tls_line EmptyString +:+ nl
  +:+ tls_line " key " +:+ dq +:+ TLSKey c +:+ dq +:+ nl
  +:+ tls_line " certificate " +:+ dq +:+ TLSCert c +:+ dq
  +:+ anchor_branch (TLSAnchor c) +:+ services_tail.


(** shlex.Split on a command line without quotes, escapes or comments: the
    words between runs of blanks. *)
Definition shlex_Split (s : string) : list string := String.words s.

Definition saveCmd : list string :=
  ["sr_cli"; "-d"; "tools"; "system"; "configuration"; "save"].
Definition mgmtServerRdyCmd : list string :=
  shlex_Split "sr_cli -d info from state system app-management application mgmt_server state | grep running".
Definition commitCompleteCmd : list string :=
  shlex_Split "sr_cli -d info from state system configuration commit 1 status | grep complete".

(** ** Methods that talk to the container runtime *)

(** How one pass through the body of a [for] loop ends. *)
Inductive LoopStep (W : Type) :=
| Continue (w : World W) (err : option error)
| Return (w : World W) (result : option error).
Arguments Continue {W}.
Arguments Return {W}.

Section Runtime.
Context {W Tpl File H : Type} `{!Host W Tpl File} `{!ContainerRuntime W H}.

(** func (s *srl) Deploy(ctx context.Context) error *)
Definition Deploy (ctx : Context) (s : srl H) (w : World W) : World W * option error :=
  let '(w, (_, err)) := host (rt_CreateContainer (runtime s) ctx (cfg s)) w in
  (w, err).

(** func (s *srl) Delete(ctx context.Context) error *)
Definition Delete (ctx : Context) (s : srl H) (w : World W) : World W * option error :=
  host (rt_DeleteContainer (runtime s) ctx (LongName (Config s))) w.

(** func (s *srl) SaveConfig(ctx context.Context) error *)
Definition SaveConfig (ctx : Context) (s : srl H) (w : World W) : World W * option error :=
  let '(w, r) := Exec (runtime s) ctx (LongName (cfg s)) saveCmd w in
  match exec_err r with
  | Some err =>
      (w, Some (ShortName (cfg s) +:+ ": failed to execute cmd: " +:+ err))
  | None =>
      if (0 <? String.length (stderr r))%nat then
        (w, Some (ShortName (cfg s) +:+ " errors: " +:+ stderr r))
      else
        (logf InfoLevel ("saved SR Linux configuration from %s node. Output:" +:+ nl +:+ "%s")
              [ShortName (cfg s); stdout r] w, None)
  end.

Definition timed_out (shortName : string) (err : option error) : error :=
  "timed out waiting for SR Linux node " +:+ shortName +:+ " to boot: " +:+ fmt_v err.

(** One pass through the body of Ready's loop.  [err] is the function's
    [err] variable, which keeps the last Exec error. *)
Definition Ready_body (ctx : Context) (s : srl H) (w : World W) (err : option error)
    : LoopStep W :=
  if ctx_done ctx (now w) then
    (* case <-ctx.Done() *)
    Return w (Some (timed_out (ShortName (cfg s)) err))
  else
    (* two commands are checked, first if the mgmt_server is running *)
    let '(w, r) := Exec (GetRuntime s) ctx (LongName (cfg s)) mgmtServerRdyCmd w in
    let err := exec_err r in
    if err is Some _ then Continue (Sleep retryTimer w) err
    else if negb (String.length (stderr r) =? 0)%nat then
      Continue (Sleep retryTimer
                  (logf DebugLevel "error during checking SR Linux boot status: %s"
                        [stderr r] w)) err
    else if negb (Strings.Contains (stdout r) "running") then
      Continue (Sleep retryTimer w) err
    else
      (* and then if the initial commit completes *)
      let '(w, r) := Exec (GetRuntime s) ctx (LongName (cfg s)) commitCompleteCmd w in
      let err := exec_err r in
      if err is Some _ then Continue (Sleep retryTimer w) err
      else if negb (String.length (stderr r) =? 0)%nat then
        Continue (Sleep retryTimer
                    (logf DebugLevel "error during checking SR Linux boot status: %s"
                          [stderr r] w)) err
      else if negb (Strings.Contains (stdout r) "complete") then
        Continue (Sleep retryTimer
                    (logf DebugLevel "node %s not yet ready" [ShortName (cfg s)] w)) err
      else
        Return (logf DebugLevel "Node %s booted" [ShortName (cfg s)] w) None.

(** for { ... }: [None] when [fuel] passes do not reach a return. *)
Fixpoint Ready_loop (fuel : nat) (ctx : Context) (s : srl H) (w : World W)
    (err : option error) : option (World W * option error) :=
  match fuel with
  | O => None
  | S fuel' =>
      match Ready_body ctx s w err with
      | Continue w' err' => Ready_loop fuel' ctx s w' err'
      | Return w' result => Some (w', result)
      end
  end.

(** The context Ready polls under. *)
Definition Ready_ctx (ctx : Context) (w : World W) : Context :=
  WithTimeout ctx readyTimeout (now w).

(** func (s *srl) Ready(ctx context.Context) error *)
Definition Ready (fuel : nat) (ctx : Context) (s : srl H) (w : World W)
    : option (World W * option error) :=
  let ctx := Ready_ctx ctx w in
  let w := logf DebugLevel "Waiting for SR Linux node %q to boot..." [ShortName (cfg s)] w in
  Ready_loop fuel ctx s w None.

Definition transferCmd (text : string) : list string :=
  ["bash"; "-c"; "echo '" +:+ text +:+ "' > /tmp/clab-config"].

Definition applyCmd : list string :=
  ["bash"; "-c"; "sr_cli -ed < tmp/clab-config"].

(** What addDefaultConfig does once Ready has returned nil. *)
Definition addDefaultConfig_after_ready (ctx : Context) (s : srl H) (w : World W)
    : World W * option error :=
  match Template.Execute srlCfgTpl (cfg s) with
  | (_, Some err) => (w, Some err)
  | (buf, None) =>
      let w := logf DebugLevel ("Node %q additional config:" +:+ nl +:+ "%s")
                    [ShortName (cfg s); buf] w in
      let '(w, r) := Exec (runtime s) ctx (LongName (cfg s)) (transferCmd buf) w in
      match exec_err r with
      | Some err => (w, Some err)
      | None =>
          let '(w, r) := Exec (runtime s) ctx (LongName (cfg s)) applyCmd w in
          match exec_err r with
          | Some err => (w, Some err)
          | None =>
              (logf DebugLevel "node %s. stdout: %s, stderr: %s"
                    [ShortName (cfg s); stdout r; stderr r] w, None)
          end
      end
  end.

(** func (s *srl) addDefaultConfig(ctx context.Context) error *)
Definition addDefaultConfig (fuel : nat) (ctx : Context) (s : srl H) (w : World W)
    : option (World W * option error) :=
  match Ready fuel ctx s w with
  | None => None
  | Some (w, Some err) => Some (w, Some err)
  | Some (w, None) => Some (addDefaultConfig_after_ready ctx s w)
  end.

(** func (s *srl) PostDeploy(ctx context.Context, _ map[string]nodes.Node) error *)
Definition PostDeploy (fuel : nat) (ctx : Context) (s : srl H) (w : World W)
    : option (World W * option error) :=
  if negb (String.eqb (StartupConfig (cfg s)) EmptyString)
     || FileExists (filepath_Join [LabDir (cfg s); "config"; "config.json"]) (ext w)
  then Some (w, None)
  else
    let w := logf InfoLevel "Running postdeploy actions for Nokia SR Linux '%s' node"
                  [ShortName (cfg s)] w in
    addDefaultConfig fuel ctx s w.

End Runtime.

(** ** Reading a shell line

    The file a [bash -c] line redirects to or from: the text after the last
    occurrence of the redirection operator, without the blanks around it. *)

Fixpoint after_last (op : ascii) (line : string) : option string :=
  match line with
  | EmptyString => None
  | String a rest =>
      match after_last op rest with
      | Some t => Some t
      | None => if decide (a = op) then Some rest else None
      end
  end.

Definition redirect_target (op : ascii) (line : string) : option string :=
  Template.TrimSpace <$> after_last op line.

(** The shell line of a [bash -c line] command. *)
Definition shell_line (cmd : list string) : option string :=
  match cmd with
  | ["bash"; "-c"; line] => Some line
  | _ => None
  end.

(** The file a relative or absolute path names for a shell whose working
    directory is [cwd]. *)
Definition resolve (cwd path : string) : string :=
  if Strings.HasPrefix path "/" then path
  else if decide (cwd = "/") then "/" +:+ path
  else cwd +:+ "/" +:+ path.

(** ** Files written before the container starts *)

(** fmt's [%02x] of one byte. *)
Definition hex_digit (n : N) : ascii :=
  match n with
  | 0 => "0" | 1 => "1" | 2 => "2" | 3 => "3" | 4 => "4" | 5 => "5" | 6 => "6" | 7 => "7"
  | 8 => "8" | 9 => "9" | 10 => "a" | 11 => "b" | 12 => "c" | 13 => "d" | 14 => "e"
  | _ => "f"
  end%char.

Definition hex02 (b : byte) : string :=
  let n := Byte.to_N b in
  String (hex_digit (n / 16)) (String (hex_digit (n mod 16)) EmptyString).

(** fmt.Sprintf("02:%02x:%02x:00:00:00", b0, b1) *)
Definition baseMAC (b0 b1 : byte) : string :=
  "02:" +:+ hex02 b0 +:+ ":" +:+ hex02 b1 +:+ ":00:00:00".

(** A zeroed buffer of length [n] after a read stored [written] at its
    front. *)
Definition filled (n : nat) (written : list byte) : list byte :=
  take n (written ++ replicate n x00).

Definition byte_at (buf : list byte) (i : nat) : byte := nth i buf x00.

(** Reading a MAC address back: six groups of two lowercase hex digits. *)
Definition hex_value (c : ascii) : option N :=
  let n := N_of_ascii c in
  if (48 <=? n) && (n <=? 57) then Some (n - 48)
  else if (97 <=? n) && (n <=? 102) then Some (n - 87)
  else None.

Fixpoint parseMAC (groups : nat) (s : string) : option (list N) :=
  match groups, s with
  | S O, String h (String l EmptyString) =>
      match hex_value h, hex_value l with
      | Some a, Some b => Some [16 * a + b]
      | _, _ => None
      end
  | S (S _ as g), String h (String l (String ":" rest)) =>
      match hex_value h, hex_value l, parseMAC g rest with
      | Some a, Some b, Some bs => Some (16 * a + b :: bs)
      | _, _, _ => None
      end
  | _, _ => None
  end.

Section Files.
Context {W Tpl File CsrTpl H : Type} `{!Host W Tpl File} `{!CertPkg W CsrTpl}.

(** func generateSRLTopologyFile(nodeType, labDir string, _ int) error *)
Definition generateSRLTopologyFile (nodeType labDir : string) (index : N)
    (w : World W) : World W * option error :=
  let dst := filepath_Join [labDir; "topology.yml"] in
  match topologies_ParseFS ("topology/" +:+ map_index srlTypes nodeType) with
  | inr err => (w, Some ("failed to get srl topology file: " +:+ err))
  | inl tpl =>
      (* generate random bytes to use in the 2-3rd bytes of a base mac *)
      let '(w, (written, err)) := host (rand_Read 2) w in
      let buf := filled 2 written in
      match err with
      | Some err => (w, Some err)
      | None =>
          let m := baseMAC (byte_at buf 0) (byte_at buf 1) in
          let w := logf DebugLevel EmptyString [m; dst] w in
          match host (os_Create dst) w with
          | (w, inr err) => (w, Some err)
          | (w, inl f) =>
              let '(w, err) := host (tpl_Execute tpl f m) w in
              (host_ (file_Close f) w, err)
          end
      end
  end.

(** func createSRLFiles(nodeCfg *types.NodeConfig) error *)
Definition createSRLFiles (nodeCfg : NodeConfig) (w : World W) : World W * option error :=
  let w := logf DebugLevel "Creating directory structure for SRL container: %s"
                [ShortName nodeCfg] w in
  let license_step : World W * option error :=
    if decide (License nodeCfg = EmptyString) then (w, None)
    else
      (* copy license file to node specific directory in lab *)
      let src := License nodeCfg in
      let dst := filepath_Join [LabDir nodeCfg; "license.key"] in
      match host (CopyFile src dst 420) w with
      | (w, Some err) =>
          (w, Some ("CopyFile src " +:+ src +:+ " -> dst " +:+ dst +:+ " failed " +:+ err))
      | (w, None) =>
          (logf DebugLevel "CopyFile src %s -> dst %s succeeded" [src; dst] w, None)
      end in
  match license_step with
  | (w, Some err) => (w, Some err)
  | (w, None) =>
      (* generate SRL topology file *)
      match generateSRLTopologyFile (NodeType nodeCfg) (LabDir nodeCfg) (Index nodeCfg) w with
      | (w, Some err) => (w, Some err)
      | (w, None) =>
          let w := host_ (CreateDirectory (path_Join [LabDir nodeCfg; "config"]) 511) w in
          if decide (StartupConfig nodeCfg = EmptyString) then (w, None)
          else
            let dst := filepath_Join [LabDir nodeCfg; "config"; "config.json"] in
            let w := logf DebugLevel "Reading startup-config %s" [StartupConfig nodeCfg] w in
            match host (os_ReadFile (StartupConfig nodeCfg)) w with
            | (w, (_, Some err)) => (w, Some err)
            | (w, (c, None)) =>
                let cfgTemplate := c in
                (* this err is the one declared inside the if block: the
                   function's final [return err] returns the outer one,
                   which is nil here *)
                match host (GenerateConfig nodeCfg dst cfgTemplate) w with
                | (w, Some err) =>
                    (logf ErrorLevel "node=%s, failed to generate config: %v"
                          [ShortName nodeCfg; err] w, None)
                | (w, None) => (w, None)
                end
            end
      end
  end.

(** for _, fullpath := range agents { ... CopyFile ... } *)
Fixpoint copy_agents (appmgr : string) (agents : list string) (w : World W)
    : World W * option error :=
  match agents with
  | [] => (w, None)
  | fullpath :: rest =>
      let basename := filepath_Base fullpath in
      let dst := filepath_Join [appmgr; basename] in
      match host (CopyFile fullpath dst 420) w with
      | (w, Some err) =>
          (w, Some ("agent copy src " +:+ fullpath +:+ " -> dst " +:+ dst
                    +:+ " failed " +:+ err))
      | (w, None) => copy_agents appmgr rest w
      end
  end.

(** PreDeploy from the assignment of the TLS fields onwards. *)
Definition PreDeploy_finish (s : srl H) (nodeCerts : Certificates) (w : World W)
    : srl H * World W * option error :=
  let s := upd_cfg (set_TLSCert (Cert nodeCerts)) s in
  let s := upd_cfg (set_TLSKey (Key nodeCerts)) s in
  (* Create appmgr subdir for agent specs and copy files, if needed *)
  let agents_step : World W * option error :=
    match NodeExtras (cfg s) with
    | Some extras =>
        if decide (length (SRLAgents extras) = 0%nat) then (w, None)
        else
          let agents := SRLAgents extras in
          let appmgr := filepath_Join [LabDir (cfg s); "config/appmgr/"] in
          let w := host_ (CreateDirectory appmgr 511) w in
          copy_agents appmgr agents w
    | None => (w, None)
    end in
  match agents_step with
  | (w, Some err) => (s, w, Some err)
  | (w, None) => let '(w, err) := createSRLFiles (cfg s) w in (s, w, err)
  end.

(** The certificate-generation branch of PreDeploy: the certificates it
    leaves in [nodeCerts]. *)
Definition PreDeploy_generate (s : srl H) (configName labCADir labCARoot : string)
    (w : World W) : World W * Certificates :=
  (* create CERT *)
  let '(certTpl, err) := parse_NodeCSRTempl in
  let w := match err with
           | Some err => logf ErrorLevel "failed to parse Node CSR Template: %v" [err] w
           | None => w
           end in
  let certInput := mkCertInput (ShortName (cfg s)) (LongName (cfg s)) (Fqdn (cfg s))
                               configName in
  let '(w, (nodeCerts, err)) :=
    host (GenerateCert (path_Join [labCARoot; "root-ca.pem"])
                       (path_Join [labCARoot; "root-ca-key.pem"])
                       certTpl certInput
                       (path_Join [labCADir; ci_Name certInput])) w in
  let w := match err with
           | Some err => logf ErrorLevel "failed to generate certificates for node %s: %v"
                              [ShortName (cfg s); err] w
           | None => w
           end in
  let w := logf DebugLevel "%s CSR: %s" [ShortName (cfg s); Csr nodeCerts] w in
  let w := logf DebugLevel "%s Cert: %s" [ShortName (cfg s); Cert nodeCerts] w in
  let w := logf DebugLevel "%s Key: %s" [ShortName (cfg s); Key nodeCerts] w in
  (w, nodeCerts).

(** func (s *srl) PreDeploy(configName, labCADir, labCARoot string) error *)
Definition PreDeploy (s : srl H) (configName labCADir labCARoot : string)
    (w : World W) : srl H * World W * option error :=
  let w := host_ (CreateDirectory (LabDir (cfg s)) 511) w in
  (* retrieve node certificates *)
  let '(w, (nodeCerts, err)) := host (RetrieveNodeCertData (cfg s) labCADir) w in
  (* if not available on disk, create cert in next step *)
  let '(w, nodeCerts) :=
    match err with
    | Some _ => PreDeploy_generate s configName labCADir labCARoot w
    | None => (w, nodeCerts)
    end in
  PreDeploy_finish s nodeCerts w.

End Files.

(** ** Test doubles for the collaborators

    A scripted runtime that answers Exec calls from a list of replies, a
    host whose file system is a set of paths, and a certificate package
    whose two operations succeed or fail as the world says. *)

Module Fake.

Record Ext := mkExt {
  replies : list ExecReply;
  files : list string;
  entropy : list byte;
  stored : option Certificates;
  issued : Certificates * option error
}.

Definition set_replies (l : list ExecReply) (e : Ext) : Ext :=
  mkExt l (files e) (entropy e) (stored e) (issued e).
Definition add_file (p : string) (e : Ext) : Ext :=
  mkExt (replies e) (p :: files e) (entropy e) (stored e) (issued e).
Definition set_entropy (l : list byte) (e : Ext) : Ext :=
  mkExt (replies e) (files e) l (stored e) (issued e).

Definition refused : ExecReply :=
  mkReply EmptyString EmptyString (Some "no such container") 0.

#[global] Instance fake_runtime : ContainerRuntime Ext unit := {|
  rt_Exec _ _ _ _ _ e :=
    match replies e with
    | r :: rest => (set_replies rest e, r)
    | [] => (e, refused)
    end;
  rt_CreateContainer _ _ c e := (e, (LongName c, None));
  rt_DeleteContainer _ _ _ e := (e, None)
|}.

Definition has_file (p : string) (e : Ext) : bool := bool_decide (p ∈ files e).

#[global] Instance fake_host : Host Ext unit string := {|
  filepath_Join elems := String.concat "/" elems;
  filepath_Base p := p;
  path_Join elems := String.concat "/" elems;
  MergeStringMaps a b :=
    match a, b with
    | Some x, Some y => Some (y ∪ x)
    | Some x, None => Some x
    | None, _ => b
    end;
  CreateDirectory _ _ e := e;
  CopyFile src dst _ e :=
    if has_file src e then (add_file dst e, None) else (e, Some "no such file");
  FileExists p e := has_file p e;
  os_ReadFile p e :=
    if has_file p e then (e, ("{}", None)) else (e, (EmptyString, Some "no such file"));
  os_Create p e := (add_file p e, inl p);
  file_Close _ e := e;
  topologies_ParseFS _ := inl tt;
  tpl_Execute _ _ _ e := (e, None);
  rand_Read n e :=
    (set_entropy (drop n (entropy e)) e,
     (take n (entropy e),
      if decide (n ≤ length (entropy e))%nat then None else Some "unexpected EOF"));
  GenerateConfig _ _ _ e := (e, None)
|}.

#[global] Instance fake_cert : CertPkg Ext unit := {|
  parse_NodeCSRTempl := (tt, None);
  RetrieveNodeCertData _ _ e :=
    match stored e with
    | Some c => (e, (c, None))
    | None => (e, (mkCerts EmptyString EmptyString EmptyString, Some "no certificate on disk"))
    end;
  GenerateCert _ _ _ _ _ e := (e, issued e)
|}.

Definition good (out : string) : ExecReply := mkReply out EmptyString None 250000000.

Definition ext0 : Ext :=
  mkExt [] [] [x3c; xa7] None
        (mkCerts "csr" "cert" "key", None).

Definition world (e : Ext) : World Ext := mkWorld e 0 [] [].

Definition node_cfg : NodeConfig :=
  mkNodeConfig "srl1" "clab-lab-srl1" "srl1.lab.io" "/lab/srl1" 0 "ixr6" "srlinux"
    EmptyString EmptyString "/bin/sh" None "admin"
    (Some {[ "net.ipv4.ip_forward" := "1" ]}) [] "cert" "key" EmptyString None.

Definition node (c : NodeConfig) : srl unit := mkSrl c tt.

(** Init on the fake host, with the maps visited in their stored order. *)
Definition run (c : NodeConfig) : Outcome (srl unit * option error) :=
  Init (Host0 := fake_host) (node c) c [] (map_to_list srlTypes) (map_to_list srlSysctl).

Definition unknown_type_cfg : NodeConfig := set_NodeType "ixr7" node_cfg.
Definition no_type_cfg : NodeConfig := set_NodeType EmptyString node_cfg.

Definition with_tls (key cert anchor : string) (c : NodeConfig) : NodeConfig :=
  mkNodeConfig (ShortName c) (LongName c) (Fqdn c) (LabDir c) (Index c)
    (NodeType c) (Image c) (StartupConfig c) (License c) (Cmd c) (Env c)
    (User c) (Sysctls c) (Binds c) cert key anchor (NodeExtras c).

Definition with_startup (path : string) (c : NodeConfig) : NodeConfig :=
  mkNodeConfig (ShortName c) (LongName c) (Fqdn c) (LabDir c) (Index c)
    (NodeType c) (Image c) path (License c) (Cmd c) (Env c)
    (User c) (Sysctls c) (Binds c) (TLSCert c) (TLSKey c) (TLSAnchor c) (NodeExtras c).

(** A configuration with a trust anchor. *)
Definition anchored_cfg : NodeConfig := with_tls "key" "cert" "root-ca" node_cfg.


(** A node that is up: both checks answer with their marker. *)
Definition booted : Ext :=
  set_replies [good "state running"; good "status complete"] ext0.

(** A save that complains on its error stream without failing. *)
Definition complaining : Ext :=
  set_replies [mkReply "saving" "Error: disk full" None 1000] ext0.

(** No certificate on disk and a certificate authority that fails. *)
Definition no_ca : Ext :=
  mkExt [] [] [x3c; xa7] None
        (mkCerts EmptyString EmptyString EmptyString, Some "cannot read root-ca.pem").

End Fake.

(** ** The remaining methods and some vocabulary for the properties *)

(** The method WithMgmtNet of srl, whose body is empty: the management
    network is of no use to this kind. *)
Definition WithMgmtNet {H M : Type} (mgmt : M) : NodeOption H := fun s => s.

(** func (s *srl) GetImages() map[string]string, with nodes.ImageKey as
    [imageKey]. *)
Definition GetImages {H} (imageKey : string) (s : srl H) : gmap string string :=
  {[ imageKey := Image (cfg s) ]}.

(** An option that leaves the configuration alone. *)
Definition keeps_cfg {H} (o : NodeOption H) : Prop := ∀ s, cfg (o s) = cfg s.

(** The configuration a call returned, when it returned. *)
Definition returned_cfg {H} (r : Outcome (srl H * option error))
    : Outcome (NodeConfig * option error) :=
  match r with
  | Ret (s, e) => Ret (cfg s, e)
  | Panic m => Panic m
  end.

Section Mounts.
Context {W Tpl File : Type} `{!Host W Tpl File}.

(** The bind mounts of an SR Linux node, in the order Init adds them: the
    license when there is one, the config directory, the topology file. *)
Definition srl_mounts (c : NodeConfig) : list string :=
  (if decide (License c = EmptyString) then []
   else [filepath_Join [LabDir c; "license.key"] +:+ ":/opt/srlinux/etc/license.key:ro"])
  ++ [filepath_Join [LabDir c; "config"] +:+ ":/etc/opt/srlinux/:rw";
      filepath_Join [LabDir c; "topology.yml"] +:+ ":/tmp/topology.yml:ro"].

End Mounts.

(** One of the two status commands Ready runs in the container [name]. *)
Definition status_call (name : string) (call : string * list string) : Prop :=
  call = (name, mgmtServerRdyCmd) ∨ call = (name, commitCompleteCmd).

(** A reply that passes Ready's three checks for [marker]. *)
Definition reports (r : ExecReply) (marker : string) : Prop :=
  exec_err r = None ∧ stderr r = EmptyString ∧ Strings.Contains (stdout r) marker = true.

(** ** More situations for the test doubles *)

Module Scenarios.
Import Fake.

Definition with_license (path : string) (c : NodeConfig) : NodeConfig :=
  mkNodeConfig (ShortName c) (LongName c) (Fqdn c) (LabDir c) (Index c)
    (NodeType c) (Image c) (StartupConfig c) path (Cmd c) (Env c)
    (User c) (Sysctls c) (Binds c) (TLSCert c) (TLSKey c) (TLSAnchor c) (NodeExtras c).

Definition with_extras (x : option Extras) (c : NodeConfig) : NodeConfig :=
  mkNodeConfig (ShortName c) (LongName c) (Fqdn c) (LabDir c) (Index c)
    (NodeType c) (Image c) (StartupConfig c) (License c) (Cmd c) (Env c)
    (User c) (Sysctls c) (Binds c) (TLSCert c) (TLSKey c) (TLSAnchor c) x.

Definition licensed_cfg : NodeConfig := with_license "/licenses/srl.key" node_cfg.
Definition nil_sysctls_cfg : NodeConfig := set_Sysctls None node_cfg.
Definition startup_cfg : NodeConfig := with_startup "/topo/srl1.cfg" node_cfg.
Definition agents_cfg : NodeConfig :=
  with_extras (Some (mkExtras ["/agents/ndk.yml"])) node_cfg.

(** The node Init leaves behind for [node_cfg]. *)
Definition initialised : srl unit :=
  match run node_cfg with
  | Ret (s, _) => s
  | Panic _ => node node_cfg
  end.

(** A node that is up and accepts the bootstrap, with a remark on the
    error stream of the apply command. *)
Definition bootstrapping : Ext :=
  set_replies [good "state running"; good "status complete"; good EmptyString;
               mkReply "applied" "warning: slow commit" None 100] ext0.

(** A node that is up but whose transfer command cannot be executed. *)
Definition refusing_transfer : Ext :=
  set_replies [mkReply EmptyString EmptyString (Some "container stopped") 5] ext0.

(** A node that answers, but is still starting. *)
Definition starting : Ext := set_replies [good "state starting"] ext0.

(** A certificate already on disk. *)
Definition with_certs : Ext :=
  mkExt [] [] [x3c; xa7] (Some (mkCerts "csr" "stored-cert" "stored-key"))
        (mkCerts EmptyString EmptyString EmptyString, Some "not reached").

(** A random source that has run dry. *)
Definition dry : Ext := set_entropy [] ext0.

(** The world outside once the topology file of srl1 is written. *)
Definition topology_written : Ext := add_file "/lab/srl1/topology.yml" (set_entropy [] ext0).

End Scenarios.

(** * Properties *)

(** ** Strings *)

Module StringFacts.
Import Strings.

Lemma append_cons (a : ascii) (s t : string) : String a s +:+ t = String a (s +:+ t).
Proof. reflexivity. Qed.

Lemma append_nil_l (t : string) : EmptyString +:+ t = t.
Proof. reflexivity. Qed.

Lemma append_nil_r (s : string) : s +:+ EmptyString = s.
Proof. induction s as [|a s IH]; [done |]. by rewrite append_cons, IH. Qed.

Lemma append_assoc (a b c : string) : (a +:+ b) +:+ c = a +:+ (b +:+ c).
Proof. induction a as [|x a IH]; [done |]. by rewrite !append_cons, IH. Qed.

Lemma HasPrefix_app (p s : string) : HasPrefix (p +:+ s) p = true.
Proof.
  induction p as [|b p IH]; [done |].
  rewrite append_cons. simpl. by rewrite decide_True.
Qed.

Lemma HasPrefix_nil (s : string) : HasPrefix s EmptyString = true.
Proof. by destruct s. Qed.


Lemma Contains_here (s sub : string) : HasPrefix s sub = true → Contains s sub = true.
Proof. intros Hp. destruct s; simpl in *; by rewrite Hp. Qed.

Lemma Contains_cons (a : ascii) (s sub : string) :
  Contains s sub = true → Contains (String a s) sub = true.
Proof.
  intros Hc. change (Contains (String a s) sub)
    with (if HasPrefix (String a s) sub then true else Contains s sub).
  rewrite Hc. by destruct (HasPrefix _ _).
Qed.

Lemma Contains_app_r (x s sub : string) :
  Contains s sub = true → Contains (x +:+ s) sub = true.
Proof.
  intros Hc. induction x as [|a x IH]; [done |].
  rewrite append_cons. by apply Contains_cons.
Qed.





End StringFacts.

(** ** Init *)

Section InitFacts.
Context {W Tpl File H : Type} `{!Host W Tpl File}.
Implicit Types (s : srl H) (opts : list (NodeOption H)) (order : list (string * string)).

Lemma collect_keys_fst order : collect_keys order = order.*1.
Proof.
  unfold collect_keys.
  assert (Hgen : ∀ acc, foldl (λ keys kv, keys ++ [kv.1]) acc order = acc ++ order.*1).
  { induction order as [|kv order IH]; intros acc; simpl.
    - by rewrite app_nil_r.
    - rewrite IH, <- app_assoc. done. }
  apply Hgen.
Qed.

Lemma range_order_keys (entries order : list (string * string)) :
  NoDup entries.*1 → range_order (list_to_map entries) order → order.*1 ≡ₚ entries.*1.
Proof.
  unfold range_order. intros Hnd ->. by rewrite map_to_list_to_map.
Qed.

Lemma srlTypes_keys_NoDup : NoDup srlTypes_entries.*1.
Proof. apply (bool_decide_unpack _). by vm_compute. Qed.

Lemma srlSysctl_keys_NoDup : NoDup srlSysctl_entries.*1.
Proof. apply (bool_decide_unpack _). by vm_compute. Qed.

Lemma srlTypes_supported (t : string) :
  is_Some (srlTypes !! t) ↔ t ∈ srlTypes_entries.*1.
Proof.
  unfold srlTypes. rewrite <- elem_of_dom, dom_list_to_map_L, elem_of_list_to_set. done.
Qed.

(** In every arrangement of the seven type names, joined by commas, each
    name starts at exactly one position of the text. *)
Lemma listing_counts :
  forallb (λ keys, forallb (λ t, Nat.eqb (Strings.Count (Strings.Join keys ", ") t) 1)
                           srlTypes_entries.*1)
          (permutations srlTypes_entries.*1) = true.
Proof. by vm_compute. Qed.

Lemma listing_count_one (keys : list string) (t : string) :
  keys ≡ₚ srlTypes_entries.*1 → t ∈ srlTypes_entries.*1 →
  Strings.Count (Strings.Join keys ", ") t = 1%nat.
Proof.
  intros Hp Ht.
  pose proof listing_counts as Hall.
  rewrite forallb_forall in Hall.
  assert (Hin : In keys (permutations srlTypes_entries.*1)).
  { apply list_elem_of_In, permutations_Permutation. by symmetry. }
  specialize (Hall keys Hin). rewrite forallb_forall in Hall.
  apply Nat.eqb_eq, Hall. by apply list_elem_of_In.
Qed.

Lemma key_count_one (keys : list string) (t : string) :
  keys ≡ₚ srlTypes_entries.*1 → t ∈ srlTypes_entries.*1 →
  count_occ String.eq_dec keys t = 1%nat.
Proof.
  intros Hp Ht. rewrite (Permutation_count_occ String.eq_dec) in Hp. rewrite Hp.
  repeat (apply elem_of_cons in Ht as [->|Ht]; [by vm_compute |]).
  by apply elem_of_nil in Ht.
Qed.

(** The range loop over the default sysctls, on an allocated map. *)
Lemma assign_range_Some order (u : gmap string string) :
  assign_range order (Some u) = Ret (Some (list_to_map (reverse order) ∪ u)).
Proof.
  revert u. induction order as [|[k v] order IH]; intros u; simpl.
  - by rewrite (left_id_L ∅ (∪)).
  - rewrite IH, reverse_cons, list_to_map_app. simpl.
    rewrite insert_empty, <- (assoc_L (∪)), <- insert_union_singleton_l. done.
Qed.

Lemma assign_range_nil order : order ≠ [] → ∃ msg, assign_range order None = Panic msg.
Proof. destruct order as [|[k v] order]; [done |]. intros _. by eexists. Qed.

Lemma range_order_to_map (entries order : list (string * string)) :
  NoDup entries.*1 → range_order (list_to_map entries) order →
  list_to_map (reverse order) = (list_to_map entries : gmap string string).
Proof.
  intros Hnd Hr. unfold range_order in Hr.
  rewrite <- (list_to_map_to_list (list_to_map entries)).
  apply list_to_map_proper.
  - rewrite reverse_Permutation, Hr. apply NoDup_fst_map_to_list.
  - by rewrite reverse_Permutation.
Qed.

(** What a successful Init leaves in the configuration. *)
Lemma Init_ok_inv s cfg0 opts typesOrder sysctlOrder s' :
  Init s cfg0 opts typesOrder sysctlOrder = Ret (s', None) →
  let c := seen s cfg0 opts in
  NodeType (cfg s') = (if decide (NodeType c = EmptyString) then srlDefaultType
                       else NodeType c)
  ∧ is_Some (srlTypes !! NodeType (cfg s'))
  ∧ Cmd (cfg s') = srlCmd
  ∧ User (cfg s') = (if decide (User c = EmptyString) then "0:0" else User c)
  ∧ assign_range sysctlOrder (Sysctls c) = Ret (Sysctls (cfg s')).
Proof.
  unfold Init, seen. intros Hinit. cbv zeta in *.
  set (s1 := apply_options opts (mkSrl cfg0 (runtime s))) in *. clearbody s1.
  destruct s1 as [c1 r1]. unfold upd_cfg in Hinit. simpl in *.
  destruct (decide (NodeType c1 = EmptyString)) as [Hty|Hty]; simpl in Hinit;
    (destruct (srlTypes !! _) as [file|] eqn:Hlook; [|done]);
    (destruct (decide (User c1 = EmptyString)) as [Hus|Hus]; simpl in Hinit);
    (destruct (assign_range sysctlOrder (Sysctls c1)) as [m|] eqn:Hassign;
       simpl in Hinit; [|done]);
    (destruct (decide (License c1 = EmptyString)); simpl in Hinit);
    injection Hinit as <-; simpl; rewrite Hlook; eauto 10.
Qed.

(** With a supported type in place, Init ends in the sysctl loop followed
    by a nil return. *)
Lemma Init_supported s cfg0 opts typesOrder sysctlOrder :
  let c := seen s cfg0 opts in
  is_Some (srlTypes !! (if decide (NodeType c = EmptyString) then srlDefaultType
                        else NodeType c)) →
  ∃ final : GoMap → srl H,
    Init s cfg0 opts typesOrder sysctlOrder
    = bind_outcome (assign_range sysctlOrder (Sysctls c)) (λ m, Ret (final m, None)).
Proof.
  unfold Init, seen. cbv zeta.
  set (s1 := apply_options opts (mkSrl cfg0 (runtime s))) in *. clearbody s1.
  destruct s1 as [c1 r1]. unfold upd_cfg. simpl.
  destruct (decide (NodeType c1 = EmptyString)); simpl; intros [file ->];
    destruct (decide (User c1 = EmptyString)); simpl;
    destruct (decide (License c1 = EmptyString)); simpl;
    by eexists (λ m, _).
Qed.

(** C5: a non-empty node type outside the supported set makes Init return
    the wrong-node-type error, whose text ends with a comma-separated
    listing in which every supported type appears exactly once (as an
    item and as text); an empty node type never yields an error, is
    replaced by the default type, and Init returns nil whenever the sysctl
    map of the configuration is allocated. *)
Theorem Init_unknown_type_rejected s cfg0 opts typesOrder sysctlOrder :
  range_order srlTypes typesOrder →
  let c := seen s cfg0 opts in
  (NodeType c ≠ EmptyString → srlTypes !! NodeType c = None →
     ∃ keys,
       Init s cfg0 opts typesOrder sysctlOrder
       = Ret (apply_options opts (mkSrl cfg0 (runtime s)),
              Some ("wrong node type. '" +:+ NodeType c
                    +:+ "' doesn't exist. should be any of "
                    +:+ Strings.Join keys ", "))
       ∧ keys ≡ₚ srlTypes_entries.*1
       ∧ ∀ t, is_Some (srlTypes !! t) →
           count_occ String.eq_dec keys t = 1%nat
           ∧ Strings.Count (Strings.Join keys ", ") t = 1%nat)
  ∧ (NodeType c = EmptyString →
       (∀ s' e, Init s cfg0 opts typesOrder sysctlOrder ≠ Ret (s', Some e))
       ∧ (∀ s', Init s cfg0 opts typesOrder sysctlOrder = Ret (s', None) →
                NodeType (cfg s') = srlDefaultType)
       ∧ (is_Some (Sysctls c) →
          ∃ s', Init s cfg0 opts typesOrder sysctlOrder = Ret (s', None))).
Proof.
  intros Horder c. subst c. unfold seen. split.
  - intros Hne Hnone. exists (collect_keys typesOrder).
    assert (Hkeys : collect_keys typesOrder ≡ₚ srlTypes_entries.*1).
    { rewrite collect_keys_fst.
      apply range_order_keys; [apply srlTypes_keys_NoDup | done]. }
    split; [|split; [done |]].
    + unfold Init. cbv zeta. rewrite decide_False by done. by rewrite Hnone.
    + intros t Ht%srlTypes_supported.
      split; [by apply key_count_one | by apply listing_count_one].
  - intros Hempty.
    assert (Hsup : is_Some (srlTypes !! (if decide (NodeType (seen s cfg0 opts) = EmptyString)
                                         then srlDefaultType
                                         else NodeType (seen s cfg0 opts)))).
    { unfold seen. rewrite decide_True by done. by eexists. }
    destruct (Init_supported s cfg0 opts typesOrder sysctlOrder Hsup) as [final Hinit].
    split; [|split].
    + intros s' e. rewrite Hinit. by destruct (assign_range _ _).
    + intros s' Hret.
      destruct (Init_ok_inv _ _ _ _ _ _ Hret) as (Hty & _).
      unfold seen in Hty. by rewrite decide_True in Hty.
    + intros [user Huser]. rewrite Hinit. unfold seen.
      rewrite Huser, assign_range_Some. by eexists.
Qed.

Lemma range_order_nonempty (entries order : list (string * string)) :
  NoDup entries.*1 → entries ≠ [] → range_order (list_to_map entries) order → order ≠ [].
Proof.
  intros Hnd Hne Hr ->. unfold range_order in Hr.
  rewrite map_to_list_to_map in Hr by done.
  apply Permutation_nil_l in Hr. by symmetry in Hr.
Qed.

(** C6: after a successful Init the sysctl map of the configuration is
    the fixed default set laid over the map the caller supplied, so every
    default key is present with its default value whatever the caller had
    stored under that key. *)
Theorem Init_sysctl_defaults_win s cfg0 opts typesOrder sysctlOrder s' :
  range_order srlSysctl sysctlOrder →
  Init s cfg0 opts typesOrder sysctlOrder = Ret (s', None) →
  ∃ user m,
    Sysctls (seen s cfg0 opts) = Some user
    ∧ Sysctls (cfg s') = Some m
    ∧ m = srlSysctl ∪ user
    ∧ ∀ k v, srlSysctl !! k = Some v → m !! k = Some v.
Proof.
  intros Horder Hinit.
  destruct (Init_ok_inv _ _ _ _ _ _ Hinit) as (_ & _ & _ & _ & Hassign).
  destruct (Sysctls (seen s cfg0 opts)) as [user|].
  - rewrite assign_range_Some in Hassign. injection Hassign as Hm.
    rewrite (range_order_to_map srlSysctl_entries) in Hm
      by (done || apply srlSysctl_keys_NoDup).
    exists user, (srlSysctl ∪ user). repeat split; [done |].
    intros k v Hk. by apply lookup_union_Some_l.
  - destruct (assign_range_nil sysctlOrder) as [msg Hp]; [|congruence].
    by apply (range_order_nonempty srlSysctl_entries); [apply srlSysctl_keys_NoDup | |].
Qed.

(** C10: a successful Init leaves the fixed SR Linux launch command in
    the entrypoint field whatever was there before, sets the user to 0:0
    when it was empty and leaves any other user as it was. *)
Theorem Init_cmd_and_user s cfg0 opts typesOrder sysctlOrder s' :
  Init s cfg0 opts typesOrder sysctlOrder = Ret (s', None) →
  let c := seen s cfg0 opts in
  Cmd (cfg s') = "sudo bash -c 'touch /.dockerenv && /opt/srlinux/bin/sr_linux'"
  ∧ (User c = EmptyString → User (cfg s') = "0:0")
  ∧ (User c ≠ EmptyString → User (cfg s') = User c).
Proof.
  intros Hinit.
  destruct (Init_ok_inv _ _ _ _ _ _ Hinit) as (_ & _ & Hcmd & Huser & _).
  cbv zeta. split; [done |]. rewrite Huser.
  split; intros Hu; [by rewrite decide_True | by rewrite decide_False].
Qed.

End InitFacts.

Module InitExamples.
Import Fake.

Lemma Init_unknown_type_rejected_witness :
  (∃ keys, run unknown_type_cfg
           = Ret (node unknown_type_cfg,
                  Some ("wrong node type. 'ixr7' doesn't exist. should be any of "
                        +:+ Strings.Join keys ", "))
           ∧ keys ≡ₚ srlTypes_entries.*1)
  ∧ (∃ s', run no_type_cfg = Ret (s', None) ∧ NodeType (cfg s') = "ixrd2").
Proof.
  split.
  - destruct (Init_unknown_type_rejected (Host0 := fake_host)
                (node unknown_type_cfg) unknown_type_cfg []
                (map_to_list srlTypes) (map_to_list srlSysctl)) as [Hbad _];
      [unfold range_order; reflexivity |].
    destruct Hbad as (keys & Hrun & Hperm & _); [by vm_compute | by vm_compute |].
    exists keys. split; [exact Hrun | exact Hperm].
  - destruct (Init_unknown_type_rejected (Host0 := fake_host)
                (node no_type_cfg) no_type_cfg []
                (map_to_list srlTypes) (map_to_list srlSysctl)) as [_ Hempty];
      [unfold range_order; reflexivity |].
    destruct Hempty as (_ & Hty & Hret); [reflexivity |].
    destruct Hret as [s' Hs']; [by eexists |].
    exists s'. split; [exact Hs' | exact (Hty s' Hs')].
Defined.

Lemma run_node_cfg : ∃ s', run node_cfg = Ret (s', None).
Proof. eexists. by vm_compute. Defined.

Lemma Init_sysctl_defaults_win_witness :
  ∃ s' m, run node_cfg = Ret (s', None)
          ∧ Sysctls node_cfg = Some {[ "net.ipv4.ip_forward" := "1" ]}
          ∧ Sysctls (cfg s') = Some m
          ∧ m !! "net.ipv4.ip_forward" = Some "0".
Proof.
  destruct run_node_cfg as [s' Hs'].
  destruct (Init_sysctl_defaults_win (Host0 := fake_host) (node node_cfg) node_cfg []
              (map_to_list srlTypes) (map_to_list srlSysctl) s')
    as (user & m & _ & Hm & _ & Hdef);
    [unfold range_order; reflexivity | exact Hs' |].
  exists s', m. repeat split; [exact Hs' | exact Hm |].
  apply Hdef. by vm_compute.
Defined.

Lemma Init_cmd_and_user_witness :
  ∃ s', run node_cfg = Ret (s', None)
        ∧ Cmd node_cfg = "/bin/sh"
        ∧ Cmd (cfg s') = "sudo bash -c 'touch /.dockerenv && /opt/srlinux/bin/sr_linux'"
        ∧ User (cfg s') = "admin".
Proof.
  destruct run_node_cfg as [s' Hs'].
  destruct (Init_cmd_and_user (Host0 := fake_host) (node node_cfg) node_cfg []
              (map_to_list srlTypes) (map_to_list srlSysctl) s' Hs')
    as (Hcmd & _ & Huser).
  exists s'. repeat split; [exact Hs' | exact Hcmd |].
  apply Huser. by vm_compute.
Defined.

End InitExamples.

(** ** SaveConfig, PostDeploy and the default bootstrap *)

Section RuntimeFacts.
Context {W Tpl File H : Type} `{!Host W Tpl File} `{!ContainerRuntime W H}.
Implicit Types (s : srl H) (w : World W) (ctx : Context).

Lemma Exec_spec (h : H) ctx (name : string) (cmd : list string) w :
  ∃ e r, rt_Exec h (now w) ctx name cmd (ext w) = (e, r)
         ∧ Exec h ctx name cmd w
           = (mkWorld e (now w + elapsed r) (logs w) (execs w ++ [(name, cmd)]), r).
Proof. unfold Exec. destruct (rt_Exec _ _ _ _ _ _) as [e r]. by exists e, r. Qed.

Lemma length_zero_empty (x : string) : String.length x = 0%nat ↔ x = EmptyString.
Proof. by destruct x. Qed.

(** C3: SaveConfig runs the save command once.  A reply with no error
    but a non-empty error stream makes it return the error carrying that
    stream (node name, the word errors, the stream); a non-empty error
    stream never lets it return nil; and it returns nil exactly when the
    reply has no error and an empty error stream. *)
Theorem SaveConfig_outcome ctx s w :
  let r := (Exec (runtime s) ctx (LongName (cfg s)) saveCmd w).2 in
  let result := (SaveConfig ctx s w).2 in
  execs (SaveConfig ctx s w).1 = execs w ++ [(LongName (cfg s), saveCmd)]
  ∧ (stderr r ≠ EmptyString → exec_err r = None →
     result = Some (ShortName (cfg s) +:+ " errors: " +:+ stderr r))
  ∧ (stderr r ≠ EmptyString → result ≠ None)
  ∧ (∀ err, exec_err r = Some err →
     result = Some (ShortName (cfg s) +:+ ": failed to execute cmd: " +:+ err))
  ∧ (result = None ↔ exec_err r = None ∧ stderr r = EmptyString).
Proof.
  unfold SaveConfig.
  destruct (Exec_spec (runtime s) ctx (LongName (cfg s)) saveCmd w) as (e & r & _ & ->).
  simpl. destruct (exec_err r) as [err|] eqn:Herr; simpl.
  - repeat split; try done. intros ? [=]. by subst. intros [? _]. done.
  - destruct (stderr r) as [|a t] eqn:Hse; simpl; repeat split; try done.
    intros [_ ?]. done.
Qed.

(** C2: with a startup configuration, or with config/config.json present
    in the lab directory, PostDeploy returns nil and leaves the world as
    it was: no command is executed and nothing is logged.  With neither,
    it logs and hands over to the default bootstrap. *)
Theorem PostDeploy_skip_condition fuel ctx s w :
  let persisted := filepath_Join [LabDir (cfg s); "config"; "config.json"] in
  (StartupConfig (cfg s) ≠ EmptyString ∨ FileExists persisted (ext w) = true →
     PostDeploy fuel ctx s w = Some (w, None))
  ∧ (StartupConfig (cfg s) = EmptyString ∧ FileExists persisted (ext w) = false →
     PostDeploy fuel ctx s w
     = addDefaultConfig fuel ctx s
         (logf InfoLevel "Running postdeploy actions for Nokia SR Linux '%s' node"
               [ShortName (cfg s)] w)).
Proof.
  unfold PostDeploy. cbv zeta. split.
  - intros [Hs|Hf].
    + destruct (String.eqb_spec (StartupConfig (cfg s)) EmptyString); [done |]. done.
    + rewrite Hf. by rewrite orb_true_r.
  - intros [Hs Hf]. rewrite Hs, Hf. done.
Qed.

(** *** The readiness poll *)

Lemma nonempty_length (x : string) : x ≠ EmptyString → (String.length x =? 0)%nat = false.
Proof. by destruct x. Qed.

Lemma Exec_clock (h : H) ctx (name : string) (cmd : list string) w w1 r1 :
  Exec h ctx name cmd w = (w1, r1) →
  now w1 = now w + elapsed r1 ∧ execs w1 = execs w ++ [(name, cmd)] ∧ logs w1 = logs w.
Proof.
  destruct (Exec_spec h ctx name cmd w) as (e & r & _ & ->). by intros [= <- <-].
Qed.


Lemma Ready_body_error ctx s w err w' e :
  Ready_body ctx s w err = Return w' (Some e) →
  w' = w ∧ ctx_done ctx (now w) = true ∧ e = timed_out (ShortName (cfg s)) err.
Proof.
  unfold Ready_body. destruct (ctx_done ctx (now w)); [by intros [= <- <-] |].
  destruct (Exec _ _ _ mgmtServerRdyCmd _) as [w1 r1].
  destruct (exec_err r1); [done |].
  destruct (negb (String.length (stderr r1) =? 0)%nat); [done |].
  destruct (negb (Strings.Contains (stdout r1) "running")); [done |].
  destruct (Exec _ _ _ commitCompleteCmd _) as [w2 r2].
  destruct (exec_err r2); [done |].
  destruct (negb (String.length (stderr r2) =? 0)%nat); [done |].
  by destruct (negb (Strings.Contains (stdout r2) "complete")).
Qed.

(** Every pass that ends in a retry moves the clock by at least the
    retry timer. *)
Lemma Ready_body_progress ctx s w err w' err' :
  Ready_body ctx s w err = Continue w' err' → now w + retryTimer ≤ now w'.
Proof.
  unfold Ready_body. destruct (ctx_done ctx (now w)); [done |].
  destruct (Exec _ _ _ mgmtServerRdyCmd _) as [w1 r1] eqn:He1.
  apply Exec_clock in He1 as (Hn1 & _ & _).
  destruct (exec_err r1); [intros [= <- _]; simpl; lia |].
  destruct (negb (String.length (stderr r1) =? 0)%nat); [intros [= <- _]; simpl; lia |].
  destruct (negb (Strings.Contains (stdout r1) "running")); [intros [= <- _]; simpl; lia |].
  destruct (Exec _ _ _ commitCompleteCmd _) as [w2 r2] eqn:He2.
  apply Exec_clock in He2 as (Hn2 & _ & _).
  destruct (exec_err r2); [intros [= <- _]; simpl; lia |].
  destruct (negb (String.length (stderr r2) =? 0)%nat); [intros [= <- _]; simpl; lia |].
  destruct (negb (Strings.Contains (stdout r2) "complete")); [intros [= <- _]; simpl; lia | done].
Qed.



Lemma Ready_ctx_bound ctx w :
  ∃ deadline, Ready_ctx ctx w = Some deadline ∧ deadline ≤ now w + readyTimeout.
Proof. unfold Ready_ctx, WithTimeout. destruct ctx as [t|]; eexists; split; eauto; lia. Qed.

Lemma Ready_ctx_done ctx w (t : N) :
  ctx_done (Ready_ctx ctx w) t = ctx_done ctx t || (now w + readyTimeout <=? t).
Proof.
  unfold Ready_ctx, WithTimeout, ctx_done. destruct ctx as [d|]; [|done].
  destruct (N.leb_spec d t), (N.leb_spec (now w + readyTimeout) t),
    (N.leb_spec (N.min d (now w + readyTimeout)) t); simpl; try done; lia.
Qed.



End RuntimeFacts.

(** ** The bootstrap template *)

Module TemplateFacts.
Import Strings StringFacts.

(** Executing the parsed template never fails and yields [rendered]. *)
Lemma Execute_srlCfgTpl (c : NodeConfig) :
  Template.Execute srlCfgTpl c = (rendered c, None).
Proof.
  destruct c as [sn ln fq ld ix nt im sc li cm en us sy bi cert key anchor ex].
  destruct anchor as [|a anchor]; vm_compute; reflexivity.
Qed.






End TemplateFacts.

(** ** The default bootstrap: transfer, then apply *)

Section BootstrapFacts.
Context {W H : Type} `{!ContainerRuntime W H}.
Implicit Types (s : srl H) (w : World W) (ctx : Context).
Import Strings StringFacts.

Lemma after_last_lacks (op : ascii) (y : string) :
  lacks op y = true → after_last op y = None.
Proof.
  induction y as [|a y IH]; simpl; [done |].
  destruct (decide (a = op)); [done |]. intros Hl. by rewrite IH.
Qed.

Lemma after_last_app (op : ascii) (x y : string) :
  lacks op y = true → after_last op (x +:+ String op y) = Some y.
Proof.
  intros Hl. induction x as [|a x IH].
  - rewrite append_nil_l. simpl. rewrite after_last_lacks by done.
    by rewrite decide_True.
  - rewrite append_cons. simpl. by rewrite IH.
Qed.

Lemma length_append (a b : string) :
  String.length (a +:+ b) = (String.length a + String.length b)%nat.
Proof. induction a as [|x a IH]; [done |]. rewrite append_cons. simpl. by rewrite IH. Qed.

Lemma append_fixed (a b : string) : a +:+ b = b → a = EmptyString.
Proof.
  intros Heq. apply (f_equal String.length) in Heq. rewrite length_append in Heq.
  destruct a; [done | simpl in Heq; lia].
Qed.

(** C9, as the code has it: whatever the rendered text, the transfer
    line redirects into /tmp/clab-config while the apply line reads from
    tmp/clab-config, a path without the leading slash; when the transfer
    succeeds exactly these two commands are executed, in this order; and
    the two paths name the same file only for a shell whose working
    directory is the root directory. *)
Theorem bootstrap_transfer_and_apply_paths ctx s w :
  let name := LongName (cfg s) in
  let text := rendered (cfg s) in
  let w0 := logf DebugLevel ("Node %q additional config:" +:+ nl +:+ "%s")
                 [ShortName (cfg s); text] w in
  (shell_line (transferCmd text) ≫= redirect_target ">"%char) = Some "/tmp/clab-config"
  ∧ (shell_line applyCmd ≫= redirect_target "<"%char) = Some "tmp/clab-config"
  ∧ (exec_err (Exec (runtime s) ctx name (transferCmd text) w0).2 = None →
     execs (addDefaultConfig_after_ready ctx s w).1
     = execs w ++ [(name, transferCmd text); (name, applyCmd)])
  ∧ (∀ cwd, cwd ≠ EmptyString →
       resolve cwd "tmp/clab-config" = resolve cwd "/tmp/clab-config" ↔ cwd = "/").
Proof.
  cbv zeta. split; [|split; [|split]].
  - simpl. unfold redirect_target.
    change ("echo '" +:+ rendered (cfg s) +:+ "' > /tmp/clab-config")
      with ("echo '" +:+ rendered (cfg s) +:+ "' " +:+ String ">" " /tmp/clab-config").
    rewrite <- !append_assoc, after_last_app by (by vm_compute). by vm_compute.
  - by vm_compute.
  - unfold addDefaultConfig_after_ready. rewrite TemplateFacts.Execute_srlCfgTpl.
    destruct (Exec _ _ _ (transferCmd _) _) as [w1 r1] eqn:He1. simpl. intros ->.
    destruct (Exec _ _ _ applyCmd _) as [w2 r2] eqn:He2.
    destruct (Exec_spec (runtime s) ctx (LongName (cfg s)) (transferCmd (rendered (cfg s)))
                (logf DebugLevel ("Node %q additional config:" +:+ nl +:+ "%s")
                      [ShortName (cfg s); rendered (cfg s)] w)) as (e1 & r1' & _ & He1').
    rewrite He1' in He1. injection He1 as <- <-.
    destruct (Exec_spec (runtime s) ctx (LongName (cfg s)) applyCmd
                (mkWorld e1 (now w + elapsed r1') (logs w ++ [mkLog DebugLevel
                   ("Node %q additional config:" +:+ nl +:+ "%s")
                   [ShortName (cfg s); rendered (cfg s)]])
                   (execs w ++ [(LongName (cfg s), transferCmd (rendered (cfg s)))])))
      as (e2 & r2' & _ & He2').
    unfold logf in He2. simpl in He2. rewrite He2' in He2. injection He2 as <- <-.
    destruct (exec_err r2'); simpl; by rewrite <- app_assoc.
  - intros cwd Hne. unfold resolve. simpl.
    destruct (decide (cwd = "/")) as [->|Hroot]; [done |].
    split; [|done]. intros Heq.
    by pose proof (append_fixed cwd "/tmp/clab-config" Heq).
Qed.

End BootstrapFacts.

(** ** PreDeploy and the files it writes *)

Section FilesFacts.
Context {W Tpl File CsrTpl H : Type} `{!Host W Tpl File} `{!CertPkg W CsrTpl}.
Implicit Types (s : srl H) (w : World W).

(** *** The base MAC *)

Lemma hex_high_digit (b : byte) :
hex_value (hex_digit (Byte.to_N b / 16)) = Some (Byte.to_N b / 16).
Proof. destruct b; reflexivity. Qed.

Lemma hex_low_digit (b : byte) :
hex_value (hex_digit (Byte.to_N b mod 16)) = Some (Byte.to_N b mod 16).
Proof. destruct b; reflexivity. Qed.

Lemma parseMAC_groups (h0 l0 h1 l1 : ascii) :
parseMAC 6 (String "0" (String "2" (String ":" (String h0 (String l0
             (String ":" (String h1 (String l1 ":00:00:00"))))))))
= match hex_value h0, hex_value l0, hex_value h1, hex_value l1 with
  | Some a, Some b, Some c, Some d => Some [2; 16 * a + b; 16 * c + d; 0; 0; 0]
  | _, _, _, _ => None
  end.
Proof.
cbn [parseMAC].
change (hex_value "0") with (Some 0). change (hex_value "2") with (Some 2).
cbv iota beta.
destruct (hex_value h0), (hex_value l0), (hex_value h1), (hex_value l1); reflexivity.
Qed.

Lemma parse_baseMAC (b0 b1 : byte) :
parseMAC 6 (baseMAC b0 b1) = Some [2; Byte.to_N b0; Byte.to_N b1; 0; 0; 0].
Proof.
change (baseMAC b0 b1)
  with (String "0" (String "2" (String ":"
          (String (hex_digit (Byte.to_N b0 / 16)) (String (hex_digit (Byte.to_N b0 mod 16))
          (String ":"
          (String (hex_digit (Byte.to_N b1 / 16)) (String (hex_digit (Byte.to_N b1 mod 16))
          ":00:00:00")))))))).
rewrite parseMAC_groups, !hex_high_digit, !hex_low_digit.
rewrite <- !N.div_mod by done. reflexivity.
Qed.

Lemma baseMAC_inj (b0 b1 c0 c1 : byte) :
  baseMAC b0 b1 = baseMAC c0 c1 → b0 = c0 ∧ b1 = c1.
Proof.
  intros Heq. apply (f_equal (parseMAC 6)) in Heq.
  rewrite !parse_baseMAC in Heq. injection Heq as H0 H1.
  split; apply (inj Some); rewrite <- !Byte.of_to_N; congruence.
Qed.

(** C8: when the topology template is found, the random read succeeds
    and the file is created, the MAC handed to the template for writing
    is built from the two bytes the random source stored: read back as
    six bytes it is 0x02, those two bytes, then three zero bytes; and two
    such MACs are different whenever the pairs of random bytes are. *)
Theorem topology_base_MAC nodeType labDir index w tpl e1 written e2 f :
  topologies_ParseFS ("topology/" +:+ map_index srlTypes nodeType) = inl tpl →
  rand_Read 2 (ext w) = (e1, (written, None)) →
  os_Create (filepath_Join [labDir; "topology.yml"]) e1 = (e2, inl f) →
  let b0 := byte_at (filled 2 written) 0 in
  let b1 := byte_at (filled 2 written) 1 in
  (∃ w', ext w' = e2
         ∧ generateSRLTopologyFile nodeType labDir index w
           = (let '(w'', err) := host (tpl_Execute tpl f (baseMAC b0 b1)) w' in
              (host_ (file_Close f) w'', err)))
  ∧ (length written = 2%nat → written = [b0; b1])
  ∧ parseMAC 6 (baseMAC b0 b1) = Some [2; Byte.to_N b0; Byte.to_N b1; 0; 0; 0]
  ∧ (∀ c0 c1 : byte, (c0, c1) ≠ (b0, b1) → baseMAC c0 c1 ≠ baseMAC b0 b1).
Proof.
  intros Hparse Hrand Hcreate b0 b1. split; [|split; [|split]].
  - unfold generateSRLTopologyFile. rewrite Hparse.
    unfold host at 1. rewrite Hrand. cbv zeta.
    unfold host at 1. simpl. rewrite Hcreate.
    exists (mkWorld e2 (now w)
              (logs w ++ [mkLog DebugLevel EmptyString
                            [baseMAC b0 b1; filepath_Join [labDir; "topology.yml"]]])
              (execs w)).
    split; reflexivity.
  - subst b0 b1. destruct written as [|x [|y [|z t]]]; try done.
  - apply parse_baseMAC.
  - intros c0 c1 Hne Heq. apply baseMAC_inj in Heq as [-> ->]. done.
Qed.

(** *** The certificate step *)

(** What the rest of PreDeploy returns, and what it does to the world
    outside, depends on the world outside only: not on the log. *)
Lemma host_outside {A} (op : W → W * A) w w' :
  ext w = ext w' →
  ext (host op w).1 = ext (host op w').1 ∧ (host op w).2 = (host op w').2.
Proof. unfold host. intros ->. by destruct (op (ext w')). Qed.

Lemma generateSRLTopologyFile_outside nodeType labDir index w w' :
  ext w = ext w' →
  outside (generateSRLTopologyFile nodeType labDir index w)
  = outside (generateSRLTopologyFile nodeType labDir index w').
Proof.
  destruct w as [e n l x], w' as [e' n' l' x']. simpl. intros <-.
  unfold generateSRLTopologyFile, outside, host, host_, logf, set_ext. simpl.
  repeat (case_match; simplify_eq/=); congruence.
Qed.

Lemma createSRLFiles_outside c w w' :
  ext w = ext w' → outside (createSRLFiles c w) = outside (createSRLFiles c w').
Proof.
  destruct w as [e n l x], w' as [e' n' l' x']. simpl. intros <-.
  unfold createSRLFiles, generateSRLTopologyFile, outside, host, host_, logf, set_ext.
  simpl.
  repeat (case_match; simplify_eq/=); congruence.
Qed.

Lemma copy_agents_outside appmgr agents w w' :
  ext w = ext w' →
  outside (copy_agents appmgr agents w) = outside (copy_agents appmgr agents w').
Proof.
  revert w w'. induction agents as [|a agents IH]; intros w w' Heq; simpl.
  - unfold outside. simpl. by rewrite Heq.
  - destruct (host_outside (CopyFile a (filepath_Join [appmgr; filepath_Base a]) 420)
                w w' Heq) as [He Hr].
    destruct (host _ w) as [v [e|]], (host _ w') as [v' [e'|]]; simplify_eq/=.
    + unfold outside. simpl. by rewrite He.
    + by apply IH.
Qed.

Lemma PreDeploy_finish_outside s c w w' :
  ext w = ext w' →
  (PreDeploy_finish s c w).2 = (PreDeploy_finish s c w').2
  ∧ ext (PreDeploy_finish s c w).1.2 = ext (PreDeploy_finish s c w').1.2.
Proof.
  intros Heq. unfold PreDeploy_finish. cbv zeta.
  set (c' := cfg (upd_cfg (set_TLSKey (Key c)) (upd_cfg (set_TLSCert (Cert c)) s))).
  set (agents := λ w0 : World W,
         match NodeExtras c' with
         | Some extras =>
             if decide (length (SRLAgents extras) = 0%nat) then (w0, None)
             else copy_agents (filepath_Join [LabDir c'; "config/appmgr/"])
                    (SRLAgents extras)
                    (host_ (CreateDirectory (filepath_Join [LabDir c'; "config/appmgr/"]) 511)
                           w0)
         | None => (w0, None)
         end).
  assert (Hag : outside (agents w) = outside (agents w')).
  { unfold agents. destruct (NodeExtras c') as [extras|].
    - destruct (decide _); [unfold outside; simpl; by rewrite Heq |].
      apply copy_agents_outside. unfold host_, set_ext. simpl. by rewrite Heq.
    - unfold outside. simpl. by rewrite Heq. }
  fold (agents w). fold (agents w').
  destruct (agents w) as [v [e|]], (agents w') as [v' [e'|]];
    unfold outside in Hag; simplify_eq/=; [done |].
  pose proof (createSRLFiles_outside c' v v' H0) as Hfiles.
  destruct (createSRLFiles c' v) as [u e], (createSRLFiles c' v') as [u' e'].
  unfold outside in Hfiles. by simplify_eq/=.
Qed.

Lemma PreDeploy_finish_cfg s c w :
  cfg (PreDeploy_finish s c w).1.1 = set_TLSKey (Key c) (set_TLSCert (Cert c) (cfg s)).
Proof.
  unfold PreDeploy_finish. cbv zeta.
  destruct (match NodeExtras _ with Some _ => _ | None => _ end) as [v [e|]]; [done |].
  by destruct (createSRLFiles _ v).
Qed.

(** C4: when retrieval fails and generation fails too, PreDeploy goes on
    exactly as after a successful generation: the generation error is
    put in an error-level log line and nowhere else, the TLS certificate
    and key of the configuration are those of the generation result
    (empty when that is the zero value), and the error PreDeploy returns
    is the one the rest of the function produces from the world outside,
    whatever the generation error was. *)
Theorem PreDeploy_generation_error_logged s configName labCADir labCARoot w
    e1 found retrieveErr e2 nodeCerts genErr :
  let w0 := host_ (CreateDirectory (LabDir (cfg s)) 511) w in
  RetrieveNodeCertData (cfg s) labCADir (ext w0) = (e1, (found, Some retrieveErr)) →
  GenerateCert (path_Join [labCARoot; "root-ca.pem"])
               (path_Join [labCARoot; "root-ca-key.pem"])
               parse_NodeCSRTempl.1
               (mkCertInput (ShortName (cfg s)) (LongName (cfg s)) (Fqdn (cfg s)) configName)
               (path_Join [labCADir; ShortName (cfg s)]) e1
    = (e2, (nodeCerts, Some genErr)) →
  let result := PreDeploy s configName labCADir labCARoot w in
  (∃ w1 parseLog,
     result = PreDeploy_finish s nodeCerts w1
     ∧ ext w1 = e2 ∧ now w1 = now w ∧ execs w1 = execs w
     ∧ logs w1 = logs w ++ parseLog ++
         [ mkLog ErrorLevel "failed to generate certificates for node %s: %v"
                 [ShortName (cfg s); genErr];
           mkLog DebugLevel "%s CSR: %s" [ShortName (cfg s); Csr nodeCerts];
           mkLog DebugLevel "%s Cert: %s" [ShortName (cfg s); Cert nodeCerts];
           mkLog DebugLevel "%s Key: %s" [ShortName (cfg s); Key nodeCerts] ]
     ∧ (parseLog = [] ∨ ∃ parseErr, parse_NodeCSRTempl.2 = Some parseErr
          ∧ parseLog = [mkLog ErrorLevel "failed to parse Node CSR Template: %v"
                              [parseErr]]))
  ∧ (∀ w', ext w' = e2 → result.2 = (PreDeploy_finish s nodeCerts w').2)
  ∧ TLSCert (cfg result.1.1) = Cert nodeCerts
  ∧ TLSKey (cfg result.1.1) = Key nodeCerts.
Proof.
  intros w0 Hretr Hgen result. subst w0.
  assert (Hrun : ∃ w1 parseLog,
     result = PreDeploy_finish s nodeCerts w1
     ∧ ext w1 = e2 ∧ now w1 = now w ∧ execs w1 = execs w
     ∧ logs w1 = logs w ++ parseLog ++
         [ mkLog ErrorLevel "failed to generate certificates for node %s: %v"
                 [ShortName (cfg s); genErr];
           mkLog DebugLevel "%s CSR: %s" [ShortName (cfg s); Csr nodeCerts];
           mkLog DebugLevel "%s Cert: %s" [ShortName (cfg s); Cert nodeCerts];
           mkLog DebugLevel "%s Key: %s" [ShortName (cfg s); Key nodeCerts] ]
     ∧ (parseLog = [] ∨ ∃ parseErr, parse_NodeCSRTempl.2 = Some parseErr
          ∧ parseLog = [mkLog ErrorLevel "failed to parse Node CSR Template: %v"
                              [parseErr]])).
  { subst result. unfold PreDeploy, PreDeploy_generate.
    unfold host at 1. rewrite Hretr. cbv zeta.
    destruct parse_NodeCSRTempl as [certTpl perr] eqn:Hp. simpl in Hgen.
    unfold host at 1. simpl. destruct perr as [parseErr|]; simpl; rewrite Hgen.
    - eexists _, [_]. split; [reflexivity |]. simpl.
      repeat split; try done; [by rewrite <- !app_assoc |]. right. by eexists.
    - eexists _, []. split; [reflexivity |]. simpl.
      repeat split; try done; [by rewrite <- !app_assoc |]. by left. }
  split; [exact Hrun |].
  destruct Hrun as (w1 & parseLog & -> & Hext & _).
  split; [|split].
  - intros w' Hw'. apply PreDeploy_finish_outside. congruence.
  - by rewrite PreDeploy_finish_cfg.
  - by rewrite PreDeploy_finish_cfg.
Qed.

End FilesFacts.

(** ** The properties at work on the test doubles *)

Module Examples.
Import Fake Strings.


Lemma PostDeploy_skip_condition_witness :
  PostDeploy 121 None (node (with_startup "/topo/srl1.cfg" node_cfg)) (world ext0)
  = Some (world ext0, None)
  ∧ PostDeploy 121 None (node node_cfg) (world booted)
    = addDefaultConfig 121 None (node node_cfg)
        (logf InfoLevel "Running postdeploy actions for Nokia SR Linux '%s' node"
              ["srl1"] (world booted)).
Proof.
  split.
  - apply (PostDeploy_skip_condition 121 None (node (with_startup "/topo/srl1.cfg" node_cfg))
             (world ext0)).
    left. by vm_compute.
  - apply (PostDeploy_skip_condition 121 None (node node_cfg) (world booted)).
    split; by vm_compute.
Defined.

Lemma SaveConfig_outcome_witness :
  (SaveConfig None (node node_cfg) (world complaining)).2
  = Some "srl1 errors: Error: disk full".
Proof.
  destruct (SaveConfig_outcome None (node node_cfg) (world complaining))
    as (_ & Hstream & _).
  apply Hstream; by vm_compute.
Defined.

Lemma PreDeploy_generation_error_logged_witness :
  let result := PreDeploy (CsrTpl := unit) (node anchored_cfg) "lab" "/lab/ca" "/lab/ca/root"
                          (world no_ca) in
  TLSCert (cfg result.1.1) = EmptyString ∧ TLSKey (cfg result.1.1) = EmptyString.
Proof.
  destruct (PreDeploy_generation_error_logged (CsrTpl := unit) (node anchored_cfg)
              "lab" "/lab/ca" "/lab/ca/root" (world no_ca)
              no_ca (mkCerts EmptyString EmptyString EmptyString) "no certificate on disk"
              no_ca (mkCerts EmptyString EmptyString EmptyString) "cannot read root-ca.pem")
    as (_ & _ & Hcert & Hkey); [by vm_compute | by vm_compute |].
  split; [exact Hcert | exact Hkey].
Defined.



Lemma topology_base_MAC_witness :
  parseMAC 6 (baseMAC x3c xa7) = Some [2; 60; 167; 0; 0; 0]
  ∧ baseMAC x3c xa8 ≠ baseMAC x3c xa7.
Proof.
  destruct (topology_base_MAC (Host0 := fake_host) "ixr6" "/lab/srl1" 0 (world ext0)
              tt (set_entropy [] ext0) [x3c; xa7]
              (add_file "/lab/srl1/topology.yml" (set_entropy [] ext0))
              "/lab/srl1/topology.yml")
    as (_ & _ & Hshape & Hdiffer); [by vm_compute | by vm_compute | by vm_compute |].
  split; [exact Hshape |]. apply Hdiffer. by vm_compute.
Defined.

Lemma bootstrap_transfer_and_apply_paths_witness :
  execs (addDefaultConfig_after_ready None (node node_cfg) (world booted)).1
  = [("clab-lab-srl1", transferCmd (rendered node_cfg)); ("clab-lab-srl1", applyCmd)]
  ∧ resolve "/root" "tmp/clab-config" ≠ resolve "/root" "/tmp/clab-config".
Proof.
  destruct (bootstrap_transfer_and_apply_paths None (node node_cfg) (world booted))
    as (_ & _ & Hexecs & Hcwd).
  split.
  - apply Hexecs. by vm_compute.
  - intros Heq. apply Hcwd in Heq; by vm_compute in *.
Defined.

End Examples.

(** ** More about Init *)

Section InitMore.
Context {W Tpl File H : Type} `{!Host W Tpl File}.
Implicit Types (s : srl H) (opts : list (NodeOption H)) (order : list (string * string)).

(** Everything a nil return of Init leaves behind. *)
Lemma Init_ok_full s cfg0 opts typesOrder sysctlOrder s' :
  Init s cfg0 opts typesOrder sysctlOrder = Ret (s', None) →
  let c := seen s cfg0 opts in
  ∃ m, assign_range sysctlOrder (Sysctls c) = Ret m
  ∧ runtime s' = runtime (apply_options opts (mkSrl cfg0 (runtime s)))
  ∧ cfg s' = mkNodeConfig (ShortName c) (LongName c) (Fqdn c) (LabDir c) (Index c)
               (if decide (NodeType c = EmptyString) then srlDefaultType else NodeType c)
               (Image c) (StartupConfig c) (License c) srlCmd
               (MergeStringMaps srlEnv (Env c))
               (if decide (User c = EmptyString) then "0:0" else User c)
               m (Binds c ++ srl_mounts c)
               (TLSCert c) (TLSKey c) (TLSAnchor c) (NodeExtras c).
Proof.
  unfold Init, seen, srl_mounts. intros Hinit. cbv zeta in *.
  set (s1 := apply_options opts (mkSrl cfg0 (runtime s))) in *. clearbody s1.
  destruct s1 as [c1 r1]. unfold upd_cfg in Hinit. simpl in *.
  destruct (decide (NodeType c1 = EmptyString)) as [Hty|Hty]; simpl in Hinit;
    (destruct (srlTypes !! _) as [file|] eqn:Hlook; [|done]);
    (destruct (decide (User c1 = EmptyString)) as [Hus|Hus]; simpl in Hinit);
    (destruct (assign_range sysctlOrder (Sysctls c1)) as [m|] eqn:Hassign;
       simpl in Hinit; [|done]);
    (destruct (decide (License c1 = EmptyString)); simpl in Hinit);
    injection Hinit as <-; exists m; simpl;
    rewrite <- ?app_assoc; simpl; done.
Qed.

End InitMore.

Section InitBehaviour.
Context {W Tpl File H : Type} `{!Host W Tpl File}.
Implicit Types (s : srl H) (opts : list (NodeOption H)) (order : list (string * string)).

(** X1: a nil return of Init leaves the bind mounts it found, in their
    order, followed by the license mount when a license is configured, the
    config directory mount and the topology file mount. *)
Theorem Init_appends_mounts s cfg0 opts typesOrder sysctlOrder s' :
  Init s cfg0 opts typesOrder sysctlOrder = Ret (s', None) →
  let c := seen s cfg0 opts in
  let license := filepath_Join [LabDir c; "license.key"]
                 +:+ ":/opt/srlinux/etc/license.key:ro" in
  let config := filepath_Join [LabDir c; "config"] +:+ ":/etc/opt/srlinux/:rw" in
  let topology := filepath_Join [LabDir c; "topology.yml"] +:+ ":/tmp/topology.yml:ro" in
  (License c = EmptyString → Binds (cfg s') = Binds c ++ [config; topology])
  ∧ (License c ≠ EmptyString → Binds (cfg s') = Binds c ++ [license; config; topology]).
Proof.
  intros Hinit. destruct (Init_ok_full _ _ _ _ _ _ Hinit) as (m & _ & _ & Hcfg).
  cbv zeta. rewrite Hcfg. unfold srl_mounts. simpl.
  split; intros Hl; [by rewrite decide_True | by rewrite decide_False].
Qed.

(** X2: a nil return of Init leaves the names, the lab directory, the
    index, the image, the startup-config and license paths, the TLS
    material and the extras of the configuration as they were. *)
Theorem Init_keeps_identity s cfg0 opts typesOrder sysctlOrder s' :
  Init s cfg0 opts typesOrder sysctlOrder = Ret (s', None) →
  let c := seen s cfg0 opts in
  ShortName (cfg s') = ShortName c ∧ LongName (cfg s') = LongName c
  ∧ Fqdn (cfg s') = Fqdn c ∧ LabDir (cfg s') = LabDir c ∧ Index (cfg s') = Index c
  ∧ Image (cfg s') = Image c ∧ StartupConfig (cfg s') = StartupConfig c
  ∧ License (cfg s') = License c ∧ TLSCert (cfg s') = TLSCert c
  ∧ TLSKey (cfg s') = TLSKey c ∧ TLSAnchor (cfg s') = TLSAnchor c
  ∧ NodeExtras (cfg s') = NodeExtras c.
Proof.
  intros Hinit. destruct (Init_ok_full _ _ _ _ _ _ Hinit) as (m & _ & _ & Hcfg).
  cbv zeta. by rewrite Hcfg.
Qed.

(** X3: with a node type that is empty or supported and a sysctl map that
    was never allocated, Init does not return: the first default sysctl it
    stores makes it panic. *)
Theorem Init_nil_sysctls_panics s cfg0 opts typesOrder sysctlOrder :
  range_order srlSysctl sysctlOrder →
  let c := seen s cfg0 opts in
  NodeType c = EmptyString ∨ is_Some (srlTypes !! NodeType c) →
  Sysctls c = None →
  Init s cfg0 opts typesOrder sysctlOrder = Panic "assignment to entry in nil map".
Proof.
  intros Horder c Hty Hnil.
  assert (Hsup : is_Some (srlTypes !! (if decide (NodeType (seen s cfg0 opts) = EmptyString)
                                       then srlDefaultType
                                       else NodeType (seen s cfg0 opts)))).
  { destruct (decide _); [by eexists | by destruct Hty]. }
  destruct (Init_supported s cfg0 opts typesOrder sysctlOrder Hsup) as [final ->].
  fold c. rewrite Hnil.
  assert (Hne : sysctlOrder ≠ []).
  { by apply (range_order_nonempty srlSysctl_entries); [apply srlSysctl_keys_NoDup | |]. }
  by destruct sysctlOrder as [|[k v] rest].
Qed.

(** X4: each supported node type is accepted as it is: with an allocated
    sysctl map Init returns nil and the type is unchanged. *)
Theorem Init_accepts_supported s cfg0 opts typesOrder sysctlOrder :
  let c := seen s cfg0 opts in
  NodeType c ∈ ["ixr6"; "ixr10"; "ixrd1"; "ixrd2"; "ixrd3"; "ixrh2"; "ixrh3"] →
  is_Some (Sysctls c) →
  ∃ s', Init s cfg0 opts typesOrder sysctlOrder = Ret (s', None)
        ∧ NodeType (cfg s') = NodeType c.
Proof.
  intros c Hin [user Huser].
  assert (Hsome : is_Some (srlTypes !! NodeType c)) by by apply srlTypes_supported.
  assert (Hne : NodeType c ≠ EmptyString).
  { intros He. rewrite He in Hin.
    repeat (apply elem_of_cons in Hin as [Hin|Hin]; [done |]). by apply elem_of_nil in Hin. }
  assert (Hsup : is_Some (srlTypes !! (if decide (NodeType (seen s cfg0 opts) = EmptyString)
                                       then srlDefaultType
                                       else NodeType (seen s cfg0 opts)))).
  { by rewrite decide_False. }
  destruct (Init_supported s cfg0 opts typesOrder sysctlOrder Hsup) as [final Hinit].
  fold c in Hinit. rewrite Huser, assign_range_Some in Hinit. simpl in Hinit.
  eexists. split; [exact Hinit |].
  destruct (Init_ok_inv _ _ _ _ _ _ Hinit) as (Hty & _).
  fold c in Hty. by rewrite decide_False in Hty.
Qed.

(** X5: running Init again on its own result changes neither the node
    type, the command, the user nor the sysctls, but adds the mounts a
    second time. *)
Theorem Init_again s cfg0 opts typesOrder sysctlOrder s1 typesOrder' sysctlOrder' s2 :
  range_order srlSysctl sysctlOrder → range_order srlSysctl sysctlOrder' →
  Init s cfg0 opts typesOrder sysctlOrder = Ret (s1, None) →
  Init s1 (cfg s1) [] typesOrder' sysctlOrder' = Ret (s2, None) →
  NodeType (cfg s2) = NodeType (cfg s1) ∧ Cmd (cfg s2) = Cmd (cfg s1)
  ∧ User (cfg s2) = User (cfg s1) ∧ Sysctls (cfg s2) = Sysctls (cfg s1)
  ∧ ∃ mounts, (2 ≤ length mounts)%nat
      ∧ Binds (cfg s1) = Binds (seen s cfg0 opts) ++ mounts
      ∧ Binds (cfg s2) = Binds (seen s cfg0 opts) ++ mounts ++ mounts.
Proof.
  intros Ho Ho' H1 H2.
  destruct (Init_ok_full _ _ _ _ _ _ H1) as (m1 & Hm1 & _ & Hc1).
  destruct (Init_ok_full _ _ _ _ _ _ H2) as (m2 & Hm2 & _ & Hc2).
  change (seen s1 (cfg s1) []) with (cfg s1) in *.
  set (c := seen s cfg0 opts) in *.
  assert (Hu : ∃ u, m1 = Some (srlSysctl ∪ u)).
  { destruct (Sysctls c) as [u|].
    - rewrite assign_range_Some in Hm1. injection Hm1 as <-. exists u.
      by rewrite (range_order_to_map srlSysctl_entries) by (done || apply srlSysctl_keys_NoDup).
    - destruct (assign_range_nil sysctlOrder) as [msg Hp]; [|congruence].
      by apply (range_order_nonempty srlSysctl_entries); [apply srlSysctl_keys_NoDup | |]. }
  destruct Hu as [u ->].
  assert (Hm : m2 = Some (srlSysctl ∪ u)).
  { rewrite Hc1 in Hm2. simpl in Hm2. rewrite assign_range_Some in Hm2.
    injection Hm2 as <-.
    rewrite (range_order_to_map srlSysctl_entries) by (done || apply srlSysctl_keys_NoDup).
    by rewrite (assoc_L (∪)), (idemp_L (∪)). }
  rewrite Hc2, Hc1. simpl. subst m2.
  repeat split.
  - destruct (decide (NodeType c = EmptyString)); [done |]. by rewrite decide_False.
  - destruct (decide (User c = EmptyString)); [done |]. by rewrite decide_False.
  - exists (srl_mounts c). split; [|split; [done |]].
    + unfold srl_mounts. rewrite length_app. simpl. lia.
    + by rewrite <- app_assoc.
Qed.

(** X6: options that leave the configuration alone, such as WithRuntime
    and WithMgmtNet, do not change what Init returns for the
    configuration; the node keeps the runtime the options installed. *)
Theorem Init_options s cfg0 opts typesOrder sysctlOrder :
  Forall keeps_cfg opts →
  returned_cfg (Init s cfg0 opts typesOrder sysctlOrder)
  = returned_cfg (Init s cfg0 [] typesOrder sysctlOrder)
  ∧ (∀ s' e, Init s cfg0 opts typesOrder sysctlOrder = Ret (s', e) →
       runtime s' = runtime (apply_options opts (mkSrl cfg0 (runtime s))))
  ∧ (∀ (r : H) (M : Type) (mgmt : M),
       keeps_cfg (WithRuntime r) ∧ keeps_cfg (WithMgmtNet (H := H) mgmt)
       ∧ runtime (apply_options (opts ++ [WithRuntime r]) (mkSrl cfg0 (runtime s))) = r).
Proof.
  intros Hkeep.
  assert (Hcfg : ∀ x, cfg (apply_options opts x) = cfg x).
  { unfold apply_options. induction Hkeep as [|o opts Ho _ IH]; intros x; simpl; [done |].
    by rewrite IH, Ho. }
  split; [|split].
  - unfold Init. cbv zeta. specialize (Hcfg (mkSrl cfg0 (runtime s))).
    change (apply_options [] (mkSrl cfg0 (runtime s))) with (mkSrl cfg0 (runtime s)).
    destruct (apply_options opts _) as [c1 r1]. simpl in Hcfg. subst c1.
    unfold upd_cfg. simpl.
    destruct (decide (NodeType cfg0 = EmptyString)); simpl;
      (destruct (srlTypes !! _); [|done]);
      (destruct (decide (User cfg0 = EmptyString)); simpl);
      (destruct (assign_range sysctlOrder (Sysctls cfg0)); simpl; [|done]);
      by destruct (decide (License cfg0 = EmptyString)).
  - intros s' e. unfold Init. cbv zeta.
    destruct (apply_options opts _) as [c1 r1]. unfold upd_cfg. simpl.
    destruct (decide (NodeType c1 = EmptyString)); simpl;
      (destruct (srlTypes !! _); [|by intros [= <- _]]);
      (destruct (decide (User c1 = EmptyString)); simpl);
      (destruct (assign_range sysctlOrder (Sysctls c1)); simpl; [|done]);
      destruct (decide (License c1 = EmptyString)); by intros [= <- _].
  - intros r M mgmt. split; [done | split; [done |]].
    unfold apply_options. by rewrite foldl_snoc.
Qed.

(** X7: after a nil return of Init the node type names one of the seven
    topology files, so the template PreDeploy asks for exists by name; for
    a type outside the table the lookup yields the empty file name. *)
Theorem Init_selects_topology s cfg0 opts typesOrder sysctlOrder s' :
  Init s cfg0 opts typesOrder sysctlOrder = Ret (s', None) →
  (∃ file, (NodeType (cfg s'), file) ∈ srlTypes_entries
           ∧ "topology/" +:+ map_index srlTypes (NodeType (cfg s')) = "topology/" +:+ file)
  ∧ (∀ t, srlTypes !! t = None → "topology/" +:+ map_index srlTypes t = "topology/").
Proof.
  intros Hinit. destruct (Init_ok_inv _ _ _ _ _ _ Hinit) as (_ & [file Hfile] & _).
  split.
  - exists file. unfold map_index. rewrite Hfile. split; [|done].
    unfold srlTypes in Hfile. by apply elem_of_list_to_map_2.
  - intros t Ht. unfold map_index. by rewrite Ht.
Qed.

End InitBehaviour.

(** ** More about the readiness poll *)

Section ReadyMore.
Context {W H : Type} `{!ContainerRuntime W H}.
Implicit Types (s : srl H) (w : World W) (ctx : Context).

(** A pass that returns nil has seen both markers. *)
Lemma Ready_body_nil ctx s w err w' :
  Ready_body ctx s w err = Return w' None →
  ∃ w1 r1 w2 r2,
    ctx_done ctx (now w) = false
    ∧ Exec (runtime s) ctx (LongName (cfg s)) mgmtServerRdyCmd w = (w1, r1)
    ∧ reports r1 "running"
    ∧ Exec (runtime s) ctx (LongName (cfg s)) commitCompleteCmd w1 = (w2, r2)
    ∧ reports r2 "complete"
    ∧ w' = logf DebugLevel "Node %s booted" [ShortName (cfg s)] w2.
Proof.
  unfold Ready_body, GetRuntime, reports. destruct (ctx_done ctx (now w)); [done |].
  destruct (Exec _ _ _ mgmtServerRdyCmd _) as [w1 r1] eqn:Hx1.
  destruct (exec_err r1) eqn:He1; [done |].
  destruct (stderr r1) eqn:Hs1; simpl; [|done].
  destruct (Strings.Contains (stdout r1) "running") eqn:Hc1; simpl; [|done].
  destruct (Exec _ _ _ commitCompleteCmd _) as [w2 r2] eqn:Hx2.
  destruct (exec_err r2) eqn:He2; [done |].
  destruct (stderr r2) eqn:Hs2; simpl; [|done].
  destruct (Strings.Contains (stdout r2) "complete") eqn:Hc2; simpl; [|done].
  intros [= <-]. by exists w1, r1, w2, r2.
Qed.

(** The commands one pass executes: at most the two status commands. *)
Lemma Ready_body_calls ctx s w err :
  ∃ calls,
    Forall (status_call (LongName (cfg s))) calls ∧ (length calls ≤ 2)%nat
    ∧ match Ready_body ctx s w err with
      | Continue w' _ | Return w' _ => execs w' = execs w ++ calls ∧ now w ≤ now w'
      end.
Proof.
  unfold Ready_body, GetRuntime. destruct (ctx_done ctx (now w)).
  { exists []. rewrite app_nil_r. repeat split; [constructor | simpl; lia | done]. }
  destruct (Exec _ _ _ mgmtServerRdyCmd _) as [w1 r1] eqn:He1.
  apply Exec_clock in He1 as (Hn1 & Hx1 & _).
  assert (Hone : ∃ calls, Forall (status_call (LongName (cfg s))) calls
                   ∧ (length calls ≤ 2)%nat ∧ execs w1 = execs w ++ calls).
  { exists [(LongName (cfg s), mgmtServerRdyCmd)].
    repeat split; [|simpl; lia | done]. constructor; [by left | constructor]. }
  destruct (exec_err r1).
  { destruct Hone as (calls & ? & ? & ?). exists calls. simpl. repeat split; try done. lia. }
  destruct (negb (String.length (stderr r1) =? 0)%nat).
  { destruct Hone as (calls & ? & ? & ?). exists calls. simpl. repeat split; try done. lia. }
  destruct (negb (Strings.Contains (stdout r1) "running")).
  { destruct Hone as (calls & ? & ? & ?). exists calls. simpl. repeat split; try done. lia. }
  clear Hone.
  destruct (Exec _ _ _ commitCompleteCmd _) as [w2 r2] eqn:He2.
  apply Exec_clock in He2 as (Hn2 & Hx2 & _).
  exists [(LongName (cfg s), mgmtServerRdyCmd); (LongName (cfg s), commitCompleteCmd)].
  split; [|split; [simpl; lia |]].
  { constructor; [by left |]. constructor; [by right | constructor]. }
  assert (Hx : execs w2 = execs w ++ [(LongName (cfg s), mgmtServerRdyCmd);
                                      (LongName (cfg s), commitCompleteCmd)]).
  { rewrite Hx2, Hx1, <- app_assoc. done. }
  destruct (exec_err r2); [simpl; split; [done | lia] |].
  destruct (negb (String.length (stderr r2) =? 0)%nat); [simpl; split; [done | lia] |].
  destruct (negb (Strings.Contains (stdout r2) "complete")); simpl; split; (done || lia).
Qed.

(** With the deadline at most [n] retry timers away the loop executes at
    most [2 * n] commands, all of them status commands. *)
Lemma Ready_loop_calls s (deadline : N) (n : nat) :
  ∀ fuel w err w' res,
    deadline ≤ now w + N.of_nat n * retryTimer →
    Ready_loop fuel (Some deadline) s w err = Some (w', res) →
    ∃ calls, execs w' = execs w ++ calls
             ∧ Forall (status_call (LongName (cfg s))) calls
             ∧ (length calls ≤ 2 * n)%nat ∧ now w ≤ now w'.
Proof.
  induction n as [|n IH]; intros fuel w err w' res Hnear Hloop;
    (destruct fuel as [|fuel]; [done |]); simpl in Hloop.
  - unfold Ready_body in Hloop. simpl in Hloop.
    replace (deadline <=? now w) with true in Hloop by (symmetry; apply N.leb_le; lia).
    injection Hloop as <- _. exists []. rewrite app_nil_r.
    repeat split; [constructor | simpl; lia | done].
  - destruct (Ready_body_calls (Some deadline) s w err) as (calls & Hall & Hlen & Hstep).
    destruct (Ready_body (Some deadline) s w err) as [w1 err1|w1 r1] eqn:Hbody.
    + destruct Hstep as [Hx Hn].
      apply Ready_body_progress in Hbody.
      destruct (IH fuel w1 err1 w' res) as (calls' & Hx' & Hall' & Hlen' & Hn'); [lia | done |].
      exists (calls ++ calls'). rewrite Hx', Hx, <- app_assoc.
      repeat split; [by apply Forall_app | rewrite length_app; lia | lia].
    + injection Hloop as <- _. destruct Hstep as [Hx Hn].
      exists calls. repeat split; try done. lia.
Qed.

Lemma Ready_loop_nil ctx s fuel w err w' :
  Ready_loop fuel ctx s w err = Some (w', None) →
  ∃ v v1 r1 v2 r2,
    ctx_done ctx (now v) = false
    ∧ Exec (runtime s) ctx (LongName (cfg s)) mgmtServerRdyCmd v = (v1, r1)
    ∧ reports r1 "running"
    ∧ Exec (runtime s) ctx (LongName (cfg s)) commitCompleteCmd v1 = (v2, r2)
    ∧ reports r2 "complete"
    ∧ w' = logf DebugLevel "Node %s booted" [ShortName (cfg s)] v2.
Proof.
  revert w err. induction fuel as [|fuel IH]; intros w err; simpl; [done |].
  destruct (Ready_body ctx s w err) as [w1 err1|w1 r1] eqn:Hbody; [apply IH |].
  intros [= -> ->].
  apply Ready_body_nil in Hbody as (v1 & r1 & v2 & r2 & Hbody).
  by exists w, v1, r1, v2, r2.
Qed.

(** X8: a nil return of Ready means the node was seen ready: in the last
    pass, begun with the polling context still live, the first status
    command replied without error, with an empty error stream and with
    running in its output, and then the second one likewise with
    complete. *)
Theorem Ready_nil_means_ready fuel ctx0 s w0 w' :
  Ready fuel ctx0 s w0 = Some (w', None) →
  let ctx := Ready_ctx ctx0 w0 in
  ∃ w w1 r1 w2 r2,
    ctx_done ctx (now w) = false
    ∧ Exec (runtime s) ctx (LongName (cfg s)) mgmtServerRdyCmd w = (w1, r1)
    ∧ exec_err r1 = None ∧ stderr r1 = EmptyString
    ∧ Strings.Contains (stdout r1) "running" = true
    ∧ Exec (runtime s) ctx (LongName (cfg s)) commitCompleteCmd w1 = (w2, r2)
    ∧ exec_err r2 = None ∧ stderr r2 = EmptyString
    ∧ Strings.Contains (stdout r2) "complete" = true
    ∧ w' = logf DebugLevel "Node %s booted" [ShortName (cfg s)] w2.
Proof.
  unfold Ready. intros Hloop. cbv zeta.
  apply Ready_loop_nil in Hloop
    as (v & v1 & r1 & v2 & r2 & Hlive & He1 & (? & ? & ?) & He2 & (? & ? & ?) & ->).
  by exists v, v1, r1, v2, r2.
Qed.

(** X9: whatever Ready returns, the commands it executed are status
    commands in the node's container, at most 240 of them, and the clock
    did not go back. *)
Theorem Ready_runs_status_commands_only fuel ctx0 s w0 w' res :
  Ready fuel ctx0 s w0 = Some (w', res) →
  ∃ calls,
    execs w' = execs w0 ++ calls
    ∧ Forall (λ call, call = (LongName (cfg s), mgmtServerRdyCmd)
                      ∨ call = (LongName (cfg s), commitCompleteCmd)) calls
    ∧ (length calls ≤ 240)%nat
    ∧ now w0 ≤ now w'.
Proof.
  unfold Ready. intros Hloop.
  destruct (Ready_ctx_bound ctx0 w0) as (deadline & Hctx & Hbound).
  rewrite Hctx in Hloop.
  eapply (Ready_loop_calls s deadline 120) in Hloop
    as (calls & Hx & Hall & Hlen & Hn);
    [|simpl; unfold readyTimeout, Minute, retryTimer in *; lia].
  exists calls. simpl in Hn. by repeat split.
Qed.

(** X10: called with a context that is already done, Ready returns the
    timed-out error at once, without running any command; as no command
    has failed, the cause it names is the nil error. *)
Theorem Ready_cancelled_at_entry fuel (deadline : N) s w0 :
  deadline ≤ now w0 →
  Ready (S fuel) (Some deadline) s w0
  = Some (logf DebugLevel "Waiting for SR Linux node %q to boot..." [ShortName (cfg s)] w0,
          Some ("timed out waiting for SR Linux node " +:+ ShortName (cfg s)
                +:+ " to boot: <nil>")).
Proof.
  intros Hdone. unfold Ready, Ready_ctx, WithTimeout. simpl. unfold Ready_body. simpl.
  replace (N.min deadline (now w0 + readyTimeout) <=? now w0) with true
    by (symmetry; apply N.leb_le; lia).
  done.
Qed.

End ReadyMore.

(** ** More about the default bootstrap and PostDeploy *)

Section BootstrapMore.
Context {W Tpl File H : Type} `{!Host W Tpl File} `{!ContainerRuntime W H}.
Implicit Types (s : srl H) (w : World W) (ctx : Context).

(** X11: once the node is ready, addDefaultConfig hands back the error of
    the transfer command as it is and then does not run the apply command;
    it hands back the error of the apply command as it is; and when
    neither command reports an error it returns nil: what the apply
    command printed on either stream is logged, not examined. *)
Theorem bootstrap_errors_pass_through ctx s w w1 r1 :
  let name := LongName (cfg s) in
  let text := rendered (cfg s) in
  let w0 := logf DebugLevel ("Node %q additional config:" +:+ nl +:+ "%s")
                 [ShortName (cfg s); text] w in
  Exec (runtime s) ctx name (transferCmd text) w0 = (w1, r1) →
  (∀ e, exec_err r1 = Some e →
     addDefaultConfig_after_ready ctx s w = (w1, Some e)
     ∧ execs w1 = execs w ++ [(name, transferCmd text)])
  ∧ (exec_err r1 = None →
     ∀ w2 r2, Exec (runtime s) ctx name applyCmd w1 = (w2, r2) →
       (∀ e, exec_err r2 = Some e → addDefaultConfig_after_ready ctx s w = (w2, Some e))
       ∧ (exec_err r2 = None →
          addDefaultConfig_after_ready ctx s w
          = (logf DebugLevel "node %s. stdout: %s, stderr: %s"
                  [ShortName (cfg s); stdout r2; stderr r2] w2, None))).
Proof.
  intros name text w0 He1. unfold addDefaultConfig_after_ready.
  rewrite TemplateFacts.Execute_srlCfgTpl. fold text name w0. rewrite He1.
  split.
  - intros e Herr. rewrite Herr. split; [done |].
    apply Exec_clock in He1 as (_ & -> & _). done.
  - intros Hok w2 r2 He2. rewrite Hok, He2.
    split; [intros e -> | intros ->]; done.
Qed.

(** X12: when Ready fails, addDefaultConfig returns Ready's error as it
    is, and no bootstrap command has been executed: every command run was
    one of the two status commands. *)
Theorem addDefaultConfig_not_ready fuel ctx s w w' e :
  Ready fuel ctx s w = Some (w', Some e) →
  addDefaultConfig fuel ctx s w = Some (w', Some e)
  ∧ ∃ calls, execs w' = execs w ++ calls
             ∧ Forall (λ call, call = (LongName (cfg s), mgmtServerRdyCmd)
                               ∨ call = (LongName (cfg s), commitCompleteCmd)) calls.
Proof.
  intros Hready. unfold addDefaultConfig. rewrite Hready. split; [done |].
  unfold Ready in Hready.
  destruct (Ready_ctx_bound ctx w) as (deadline & Hctx & Hbound).
  rewrite Hctx in Hready.
  eapply (Ready_loop_calls s deadline 120) in Hready as (calls & Hx & Hall & _);
    [|simpl; unfold readyTimeout, Minute, retryTimer in *; lia].
  by exists calls.
Qed.

(** X13: for a node without startup configuration and without persisted
    configuration, called with a live context, whose two status commands
    answer with their markers at the first pass and whose two bootstrap
    commands report no error, PostDeploy returns nil after exactly four
    commands: the two status commands, the transfer, the apply. *)
Theorem PostDeploy_bootstraps_ready_node fuel ctx s w w1 r1 w2 r2 w3 r3 w4 r4 :
  let name := LongName (cfg s) in
  let text := rendered (cfg s) in
  let polling := Ready_ctx ctx w in
  StartupConfig (cfg s) = EmptyString →
  FileExists (filepath_Join [LabDir (cfg s); "config"; "config.json"]) (ext w) = false →
  ctx_done ctx (now w) = false →
  Exec (runtime s) polling name mgmtServerRdyCmd
       (logf DebugLevel "Waiting for SR Linux node %q to boot..." [ShortName (cfg s)]
          (logf InfoLevel "Running postdeploy actions for Nokia SR Linux '%s' node"
                [ShortName (cfg s)] w)) = (w1, r1) →
  exec_err r1 = None → stderr r1 = EmptyString →
  Strings.Contains (stdout r1) "running" = true →
  Exec (runtime s) polling name commitCompleteCmd w1 = (w2, r2) →
  exec_err r2 = None → stderr r2 = EmptyString →
  Strings.Contains (stdout r2) "complete" = true →
  Exec (runtime s) ctx name (transferCmd text)
       (logf DebugLevel ("Node %q additional config:" +:+ nl +:+ "%s")
             [ShortName (cfg s); text]
          (logf DebugLevel "Node %s booted" [ShortName (cfg s)] w2)) = (w3, r3) →
  exec_err r3 = None →
  Exec (runtime s) ctx name applyCmd w3 = (w4, r4) →
  exec_err r4 = None →
  PostDeploy (S fuel) ctx s w
  = Some (logf DebugLevel "node %s. stdout: %s, stderr: %s"
                [ShortName (cfg s); stdout r4; stderr r4] w4, None)
  ∧ execs w4 = execs w ++ [(name, mgmtServerRdyCmd); (name, commitCompleteCmd);
                           (name, transferCmd text); (name, applyCmd)].
Proof.
  intros name text polling Hsc Hfile Hlive He1 Hok1 Hse1 Hout1 He2 Hok2 Hse2 Hout2
         He3 Hok3 He4 Hok4.
  split.
  - unfold PostDeploy. rewrite Hsc, Hfile. simpl.
    unfold addDefaultConfig, Ready. simpl.
    unfold Ready_body, GetRuntime.
    change (Ready_ctx ctx (logf InfoLevel
              "Running postdeploy actions for Nokia SR Linux '%s' node"
              [ShortName (cfg s)] w)) with polling.
    assert (Hpoll : ctx_done polling (now w) = false).
    { subst polling. rewrite Ready_ctx_done, Hlive. simpl.
      apply N.leb_gt. unfold readyTimeout, Minute, Second. lia. }
    simpl. rewrite Hpoll. fold name. rewrite He1, Hok1, Hse1, Hout1. simpl.
    rewrite He2, Hok2, Hse2, Hout2. simpl.
    unfold addDefaultConfig_after_ready. rewrite TemplateFacts.Execute_srlCfgTpl.
    fold name text. rewrite He3, Hok3, He4, Hok4. done.
  - apply Exec_clock in He1 as (_ & Hx1 & _), He2 as (_ & Hx2 & _),
      He3 as (_ & Hx3 & _), He4 as (_ & Hx4 & _).
    simpl in *. rewrite Hx4, Hx3, Hx2, Hx1, <- !app_assoc. done.
Qed.

End BootstrapMore.

(** ** More about the bootstrap text *)

Module TemplateMore.
Import Strings StringFacts.

Lemma Contains_at_front (sub y : string) : Contains (sub +:+ y) sub = true.
Proof. apply Contains_here, HasPrefix_app. Qed.

(** X14: for every configuration the bootstrap template renders without
    error; the text starts with the TLS profile line, carries the key and
    the certificate between double quotes exactly as they are in the
    configuration, enables gNMI, JSON-RPC and LLDP, and ends with the line
    commit save. *)
Theorem bootstrap_text_carries_values (c : NodeConfig) :
  ∃ out,
    Template.Execute srlCfgTpl c = (out, None)
    ∧ HasPrefix out "set / system tls server-profile clab-profile" = true
    ∧ Contains out ("key " +:+ dq +:+ TLSKey c +:+ dq) = true
    ∧ Contains out ("certificate " +:+ dq +:+ TLSCert c +:+ dq) = true
    ∧ Contains out "set / system gnmi-server admin-state enable" = true
    ∧ Contains out "set / system json-rpc-server admin-state enable" = true
    ∧ Contains out "set / system lldp admin-state enable" = true
    ∧ ∃ body, out = body +:+ nl +:+ "commit save".
Proof.
  exists (rendered c). split; [apply TemplateFacts.Execute_srlCfgTpl |].
  unfold rendered.
  set (rest := anchor_branch (TLSAnchor c) +:+ services_tail).
  assert (Htail : ∀ sub, Contains services_tail sub = true →
            Contains (tls_line EmptyString +:+ nl +:+ tls_line " key " +:+ dq +:+ TLSKey c
                      +:+ dq +:+ nl +:+ tls_line " certificate " +:+ dq +:+ TLSCert c
                      +:+ dq +:+ rest) sub = true).
  { intros sub Hsub. subst rest. by do 12 apply Contains_app_r. }
  split; [|split; [|split; [|split; [|split; [|split]]]]].
  - apply HasPrefix_app.
  - do 2 apply Contains_app_r.
    change (tls_line " key ") with (tls_line " " +:+ "key ").
    rewrite append_assoc. apply Contains_app_r.
    replace ("key " +:+ dq +:+ TLSKey c +:+ dq +:+ nl +:+ tls_line " certificate "
             +:+ dq +:+ TLSCert c +:+ dq +:+ rest)
      with (("key " +:+ dq +:+ TLSKey c +:+ dq) +:+ nl +:+ tls_line " certificate "
            +:+ dq +:+ TLSCert c +:+ dq +:+ rest)
      by (by rewrite !append_assoc).
    apply Contains_at_front.
  - do 7 apply Contains_app_r.
    change (tls_line " certificate ") with (tls_line " " +:+ "certificate ").
    rewrite append_assoc. apply Contains_app_r.
    replace ("certificate " +:+ dq +:+ TLSCert c +:+ dq +:+ rest)
      with (("certificate " +:+ dq +:+ TLSCert c +:+ dq) +:+ rest)
      by (by rewrite !append_assoc).
    apply Contains_at_front.
  - apply Htail. by vm_compute.
  - apply Htail. by vm_compute.
  - apply Htail. by vm_compute.
  - subst rest.
    change services_tail
      with (String.concat nl [
              EmptyString;
              "set / system gnmi-server admin-state enable network-instance mgmt admin-state enable tls-profile clab-profile";
              "set / system json-rpc-server admin-state enable network-instance mgmt http admin-state enable";
              "set / system json-rpc-server admin-state enable network-instance mgmt https admin-state enable tls-profile clab-profile";
              "set / system lldp admin-state enable";
              "set / system aaa authentication idle-timeout 7200"]
            +:+ nl +:+ "commit save").
    eexists. rewrite <- !append_assoc. reflexivity.
Qed.

End TemplateMore.

(** ** More about the files PreDeploy writes *)

Section FilesMore.
Context {W Tpl File CsrTpl H : Type} `{!Host W Tpl File} `{!CertPkg W CsrTpl}.
Implicit Types (s : srl H) (w : World W) (c : NodeConfig).

(** X15: generateSRLTopologyFile stops at its first failing step.  A
    template that cannot be loaded gives the wrapped error and leaves the
    world as it was; a failed random read gives that error before any file
    is created; a failed create gives that error before the template is
    executed; and once the file is created the result of the template
    execution is returned as it is, with the file closed. *)
Theorem topology_file_failures nodeType labDir index w :
  let name := "topology/" +:+ map_index srlTypes nodeType in
  let dst := filepath_Join [labDir; "topology.yml"] in
  let result := generateSRLTopologyFile nodeType labDir index w in
  (∀ err, topologies_ParseFS name = inr err →
     result = (w, Some ("failed to get srl topology file: " +:+ err)))
  ∧ (∀ tpl e1 written,
       topologies_ParseFS name = inl tpl →
       (∀ err, rand_Read 2 (ext w) = (e1, (written, Some err)) →
          result = (set_ext e1 w, Some err))
       ∧ (rand_Read 2 (ext w) = (e1, (written, None)) →
          let mac := baseMAC (byte_at (filled 2 written) 0) (byte_at (filled 2 written) 1) in
          (∀ e2 err, os_Create dst e1 = (e2, inr err) →
             outside result = (e2, Some err) ∧ logs result.1 = logs w ++
               [mkLog DebugLevel EmptyString [mac; dst]])
          ∧ (∀ e2 f e3 res, os_Create dst e1 = (e2, inl f) →
               tpl_Execute tpl f mac e2 = (e3, res) →
               outside result = (file_Close f e3, res)))).
Proof.
  cbv zeta. unfold generateSRLTopologyFile. split.
  - by intros err ->.
  - intros tpl e1 written Hparse. rewrite Hparse. split.
    + intros err Hrand. unfold host at 1. by rewrite Hrand.
    + intros Hrand. cbv zeta. split.
      * intros e2 err Hcreate. unfold host. rewrite Hrand. simpl. by rewrite Hcreate.
      * intros e2 f e3 res Hcreate Hexec. unfold host at 1. rewrite Hrand. cbv zeta.
        unfold host at 1. simpl. rewrite Hcreate. unfold host. simpl. by rewrite Hexec.
Qed.

(** The outcome of the license step: no license, or a copy that worked,
    leaving the world outside as [el]. *)
Lemma createSRLFiles_after_license c w el :
  (License c = EmptyString ∧ el = ext w)
  ∨ (License c ≠ EmptyString
     ∧ CopyFile (License c) (filepath_Join [LabDir c; "license.key"]) 420 (ext w)
       = (el, None)) →
  ∃ wl, ext wl = el
    ∧ createSRLFiles c w
      = match generateSRLTopologyFile (NodeType c) (LabDir c) (Index c) wl with
        | (w1, Some err) => (w1, Some err)
        | (w1, None) =>
            let w2 := host_ (CreateDirectory (path_Join [LabDir c; "config"]) 511) w1 in
            if decide (StartupConfig c = EmptyString) then (w2, None)
            else
              let dst := filepath_Join [LabDir c; "config"; "config.json"] in
              let w3 := logf DebugLevel "Reading startup-config %s" [StartupConfig c] w2 in
              match host (os_ReadFile (StartupConfig c)) w3 with
              | (w4, (_, Some err)) => (w4, Some err)
              | (w4, (content, None)) =>
                  match host (GenerateConfig c dst content) w4 with
                  | (w5, Some err) =>
                      (logf ErrorLevel "node=%s, failed to generate config: %v"
                            [ShortName c; err] w5, None)
                  | (w5, None) => (w5, None)
                  end
              end
        end.
Proof.
  intros [[Hl ->]|[Hl Hcopy]]; unfold createSRLFiles; cbv zeta.
  - rewrite decide_True by done. eexists. split; [|reflexivity]. done.
  - rewrite decide_False by done. unfold host at 1. simpl. rewrite Hcopy.
    eexists. split; [|reflexivity]. done.
Qed.

(** X16: once the license step and the topology file are done,
    createSRLFiles creates the config directory and, without a startup
    configuration, returns nil without reading or generating anything.
    With one, a failed read of the startup file is returned as the error,
    but a failed generation of config.json is only logged: createSRLFiles
    returns nil all the same. *)
Theorem createSRLFiles_startup_config c w el et :
  (License c = EmptyString ∧ el = ext w)
  ∨ (License c ≠ EmptyString
     ∧ CopyFile (License c) (filepath_Join [LabDir c; "license.key"]) 420 (ext w)
       = (el, None)) →
  (∀ v, ext v = el →
        outside (generateSRLTopologyFile (NodeType c) (LabDir c) (Index c) v) = (et, None)) →
  let ed := CreateDirectory (path_Join [LabDir c; "config"]) 511 et in
  let dst := filepath_Join [LabDir c; "config"; "config.json"] in
  (StartupConfig c = EmptyString → outside (createSRLFiles c w) = (ed, None))
  ∧ (StartupConfig c ≠ EmptyString →
     ∀ er content,
       (∀ err, os_ReadFile (StartupConfig c) ed = (er, (content, Some err)) →
          outside (createSRLFiles c w) = (er, Some err))
       ∧ (os_ReadFile (StartupConfig c) ed = (er, (content, None)) →
          ∀ eg res, GenerateConfig c dst content er = (eg, res) →
            outside (createSRLFiles c w) = (eg, None)
            ∧ (∀ err, res = Some err →
                 last (logs (createSRLFiles c w).1)
                 = Some (mkLog ErrorLevel "node=%s, failed to generate config: %v"
                               [ShortName c; err])))).
Proof.
  intros Hlic Htopo ed dst.
  destruct (createSRLFiles_after_license c w el Hlic) as (wl & Hwl & ->).
  specialize (Htopo wl Hwl).
  destruct (generateSRLTopologyFile _ _ _ wl) as [w1 r1].
  unfold outside in Htopo. simpl in Htopo. injection Htopo as Hext ->.
  subst ed dst. cbv zeta. split.
  - intros Hs. rewrite decide_True by done. unfold outside, host_. simpl. by rewrite Hext.
  - intros Hs er content. rewrite decide_False by done. split.
    + intros err Hread. unfold host, host_. simpl. rewrite Hext, Hread. done.
    + intros Hread eg res Hgen. unfold host, host_. simpl. rewrite Hext, Hread. simpl.
      rewrite Hgen.
      destruct res as [err|]; simpl; split; try done.
      intros err' [= <-]. by rewrite last_snoc.
Qed.

(** X17: createSRLFiles stops at its first failing step: a license that
    cannot be copied gives the CopyFile error before any topology file is
    generated, and a failed topology file gives its error before the
    config directory is created. *)
Theorem createSRLFiles_stops_early c w :
  let dst := filepath_Join [LabDir c; "license.key"] in
  (License c ≠ EmptyString →
   ∀ e err, CopyFile (License c) dst 420 (ext w) = (e, Some err) →
     outside (createSRLFiles c w)
     = (e, Some ("CopyFile src " +:+ License c +:+ " -> dst " +:+ dst
                 +:+ " failed " +:+ err)))
  ∧ (∀ el et err,
       (License c = EmptyString ∧ el = ext w)
       ∨ (License c ≠ EmptyString ∧ CopyFile (License c) dst 420 (ext w) = (el, None)) →
       (∀ v, ext v = el →
             outside (generateSRLTopologyFile (NodeType c) (LabDir c) (Index c) v)
             = (et, Some err)) →
       outside (createSRLFiles c w) = (et, Some err)).
Proof.
  cbv zeta. split.
  - intros Hl e err Hcopy. unfold createSRLFiles. cbv zeta.
    rewrite decide_False by done. unfold host at 1. simpl. by rewrite Hcopy.
  - intros el et err Hlic Htopo.
    destruct (createSRLFiles_after_license c w el Hlic) as (wl & Hwl & ->).
    specialize (Htopo wl Hwl).
    destruct (generateSRLTopologyFile _ _ _ wl) as [w1 r1].
    unfold outside in *. simpl in *. injection Htopo as Hext ->. simpl. by rewrite Hext.
Qed.

(** X18: when the node's certificate is found on disk, PreDeploy
    generates nothing and logs nothing about certificates: it goes on with
    the certificate and key it retrieved. *)
Theorem PreDeploy_uses_stored_certificate s configName labCADir labCARoot w e1 found :
  let w0 := host_ (CreateDirectory (LabDir (cfg s)) 511) w in
  RetrieveNodeCertData (cfg s) labCADir (ext w0) = (e1, (found, None)) →
  let result := PreDeploy s configName labCADir labCARoot w in
  result = PreDeploy_finish s found (mkWorld e1 (now w) (logs w) (execs w))
  ∧ TLSCert (cfg result.1.1) = Cert found
  ∧ TLSKey (cfg result.1.1) = Key found.
Proof.
  intros w0 Hretr result. subst w0.
  assert (Hrun : result = PreDeploy_finish s found (mkWorld e1 (now w) (logs w) (execs w))).
  { subst result. unfold PreDeploy. unfold host at 1. by rewrite Hretr. }
  split; [exact Hrun |]. rewrite Hrun, PreDeploy_finish_cfg. done.
Qed.

Lemma copy_agents_logs appmgr agents w :
  logs (copy_agents appmgr agents w).1 = logs w
  ∧ ∀ e, (copy_agents appmgr agents w).2 = Some e →
      ∃ a err, a ∈ agents
        ∧ e = "agent copy src " +:+ a +:+ " -> dst "
              +:+ filepath_Join [appmgr; filepath_Base a] +:+ " failed " +:+ err.
Proof.
  revert w. induction agents as [|a agents IH]; intros w; simpl; [done |].
  unfold host. destruct (CopyFile _ _ _ _) as [e1 [err|]]; simpl.
  - split; [done |]. intros e [= <-]. exists a, err. split; [by left | done].
  - destruct (IH (set_ext e1 w)) as [Hlogs Herr]. split; [by rewrite Hlogs |].
    intros e He. destruct (Herr e He) as (b & err & Hin & ->).
    exists b, err. split; [by right | done].
Qed.

(** X19: without agents PreDeploy creates no appmgr directory and goes
    straight to createSRLFiles.  With agents, a copy that fails ends
    PreDeploy with an error that names that agent and its destination
    under config/appmgr; createSRLFiles is not run, while the TLS fields
    of the configuration are already set. *)
Theorem PreDeploy_agents s certs w :
  let s' := upd_cfg (set_TLSKey (Key certs)) (upd_cfg (set_TLSCert (Cert certs)) s) in
  let appmgr := filepath_Join [LabDir (cfg s); "config/appmgr/"] in
  ((NodeExtras (cfg s) = None ∨ NodeExtras (cfg s) = Some (mkExtras [])) →
     PreDeploy_finish s certs w
     = (let '(w', err) := createSRLFiles (cfg s') w in (s', w', err)))
  ∧ (∀ agents w' e,
       NodeExtras (cfg s) = Some (mkExtras agents) → agents ≠ [] →
       copy_agents appmgr agents (host_ (CreateDirectory appmgr 511) w) = (w', Some e) →
       PreDeploy_finish s certs w = (s', w', Some e)
       ∧ logs w' = logs w
       ∧ ∃ a err, a ∈ agents
           ∧ e = "agent copy src " +:+ a +:+ " -> dst "
                 +:+ filepath_Join [appmgr; filepath_Base a] +:+ " failed " +:+ err).
Proof.
  cbv zeta. unfold PreDeploy_finish. cbv zeta. simpl. split.
  - intros [->| ->]; simpl; done.
  - intros agents w' e -> Hne Hcopy. simpl.
    destruct agents as [|a agents]; [done |].
    rewrite decide_False by done. rewrite Hcopy.
    split; [done |].
    pose proof (copy_agents_logs (filepath_Join [LabDir (cfg s); "config/appmgr/"])
                  (a :: agents)
                  (host_ (CreateDirectory (filepath_Join [LabDir (cfg s); "config/appmgr/"])
                            511) w)) as [Hlogs Herr].
    rewrite Hcopy in Hlogs, Herr. simpl in Hlogs, Herr. split; [done |]. by apply Herr.
Qed.

End FilesMore.

(** ** The cause named by the timed-out error *)

Section ReadyCause.
Context {W H : Type} `{!ContainerRuntime W H}.
Implicit Types (s : srl H) (w : World W) (ctx : Context).

(** A pass that ends in a retry ends with the sleep after its last
    command, and hands on the error of that command. *)
Lemma Ready_body_retry ctx s w err w1 err1 :
  Ready_body ctx s w err = Continue w1 err1 →
  ∃ v cmd v' r,
    Exec (runtime s) ctx (LongName (cfg s)) cmd v = (v', r)
    ∧ err1 = exec_err r ∧ execs w1 = execs v' ∧ now w1 = now v' + retryTimer.
Proof.
  unfold Ready_body, GetRuntime. destruct (ctx_done ctx (now w)); [done |].
  destruct (Exec _ _ _ mgmtServerRdyCmd _) as [v1 r1] eqn:Hx1.
  assert (Hfirst : ∀ u, execs u = execs v1 → now u = now v1 →
            Continue (Sleep retryTimer u) (exec_err r1) = Continue w1 err1 →
            ∃ v cmd v' r,
              Exec (runtime s) ctx (LongName (cfg s)) cmd v = (v', r)
              ∧ err1 = exec_err r ∧ execs w1 = execs v' ∧ now w1 = now v' + retryTimer).
  { intros u Hxu Hnu [= <- <-]. exists w, mgmtServerRdyCmd, v1, r1. simpl.
    by rewrite Hxu, Hnu. }
  destruct (exec_err r1) eqn:He1; [by apply Hfirst |].
  destruct (negb (String.length (stderr r1) =? 0)%nat); [by apply Hfirst |].
  destruct (negb (Strings.Contains (stdout r1) "running")); [by apply Hfirst |].
  clear Hfirst.
  destruct (Exec _ _ _ commitCompleteCmd _) as [v2 r2] eqn:Hx2.
  assert (Hsecond : ∀ u, execs u = execs v2 → now u = now v2 →
            Continue (Sleep retryTimer u) (exec_err r2) = Continue w1 err1 →
            ∃ v cmd v' r,
              Exec (runtime s) ctx (LongName (cfg s)) cmd v = (v', r)
              ∧ err1 = exec_err r ∧ execs w1 = execs v' ∧ now w1 = now v' + retryTimer).
  { intros u Hxu Hnu [= <- <-]. exists v1, commitCompleteCmd, v2, r2. simpl.
    by rewrite Hxu, Hnu. }
  destruct (exec_err r2) eqn:He2; [by apply Hsecond |].
  destruct (negb (String.length (stderr r2) =? 0)%nat); [by apply Hsecond |].
  destruct (negb (Strings.Contains (stdout r2) "complete")); [by apply Hsecond | done].
Qed.

Lemma Ready_loop_cause ctx s fuel w err w' e :
  Ready_loop fuel ctx s w err = Some (w', Some e) →
  (w' = w ∧ e = timed_out (ShortName (cfg s)) err)
  ∨ (∃ v cmd v' r,
       Exec (runtime s) ctx (LongName (cfg s)) cmd v = (v', r)
       ∧ execs w' = execs v' ∧ now w' = now v' + retryTimer
       ∧ e = timed_out (ShortName (cfg s)) (exec_err r)).
Proof.
  revert w err. induction fuel as [|fuel IH]; intros w err; simpl; [done |].
  destruct (Ready_body ctx s w err) as [w1 err1|w1 r1] eqn:Hbody.
  - intros Hloop. right.
    destruct (IH _ _ Hloop) as [[-> ->]|Hlater]; [|done].
    apply Ready_body_retry in Hbody as (v & cmd & v' & r & He & -> & Hx1 & Hn1).
    by exists v, cmd, v', r.
  - intros [= -> ->]. apply Ready_body_error in Hbody as (-> & _ & ->). by left.
Qed.

(** X20: the timed-out error of Ready names the error of the last command
    it executed: the command after which it slept for the last time.  When
    that command ran without error, or when no command was executed at
    all, the cause it names is the nil error. *)
Theorem Ready_timeout_cause fuel ctx0 s w0 w' e :
  Ready fuel ctx0 s w0 = Some (w', Some e) →
  let report cause := "timed out waiting for SR Linux node " +:+ ShortName (cfg s)
                      +:+ " to boot: " +:+ cause in
  (execs w' = execs w0 ∧ e = report "<nil>")
  ∨ (∃ v cmd v' r,
       Exec (runtime s) (Ready_ctx ctx0 w0) (LongName (cfg s)) cmd v = (v', r)
       ∧ execs w' = execs v' ∧ now w' = now v' + retryTimer
       ∧ (∀ err, exec_err r = Some err → e = report err)
       ∧ (exec_err r = None → e = report "<nil>")).
Proof.
  unfold Ready. intros Hloop. cbv zeta.
  apply Ready_loop_cause in Hloop as [[-> ->]|(v & cmd & v' & r & He & Hx & Hn & ->)].
  - by left.
  - right. exists v, cmd, v', r. repeat split; try done; by intros; subst; destruct (exec_err r); simplify_eq.
Qed.

End ReadyCause.

(** ** The further properties at work on the test doubles *)

Module MoreExamples.
Import Fake Scenarios Strings.

Lemma run_licensed_cfg : ∃ s', run licensed_cfg = Ret (s', None).
Proof. eexists. by vm_compute. Defined.

Lemma Init_appends_mounts_witness :
  ∃ s', run licensed_cfg = Ret (s', None)
        ∧ Binds (cfg s') = ["/lab/srl1/license.key:/opt/srlinux/etc/license.key:ro";
                            "/lab/srl1/config:/etc/opt/srlinux/:rw";
                            "/lab/srl1/topology.yml:/tmp/topology.yml:ro"].
Proof.
  destruct run_licensed_cfg as [s' Hs']. exists s'. split; [exact Hs' |].
  destruct (Init_appends_mounts (Host0 := fake_host) (node licensed_cfg) licensed_cfg []
              (map_to_list srlTypes) (map_to_list srlSysctl) s' Hs') as [_ Hlic].
  rewrite Hlic; by vm_compute.
Defined.

Lemma Init_keeps_identity_witness :
  ∃ s', run licensed_cfg = Ret (s', None)
        ∧ LongName (cfg s') = "clab-lab-srl1" ∧ License (cfg s') = "/licenses/srl.key".
Proof.
  destruct run_licensed_cfg as [s' Hs']. exists s'. split; [exact Hs' |].
  destruct (Init_keeps_identity (Host0 := fake_host) (node licensed_cfg) licensed_cfg []
              (map_to_list srlTypes) (map_to_list srlSysctl) s' Hs')
    as (_ & Hln & _ & _ & _ & _ & _ & Hlic & _).
  split; [exact Hln | exact Hlic].
Defined.

Lemma Init_nil_sysctls_panics_witness :
  run nil_sysctls_cfg = Panic "assignment to entry in nil map".
Proof.
  apply (Init_nil_sysctls_panics (Host0 := fake_host) (node nil_sysctls_cfg)
           nil_sysctls_cfg [] (map_to_list srlTypes) (map_to_list srlSysctl)).
  - unfold range_order. reflexivity.
  - right. vm_compute. eexists. reflexivity.
  - reflexivity.
Defined.

Lemma Init_accepts_supported_witness :
  ∃ s', run node_cfg = Ret (s', None) ∧ NodeType (cfg s') = "ixr6".
Proof.
  apply (Init_accepts_supported (Host0 := fake_host) (node node_cfg) node_cfg []
           (map_to_list srlTypes) (map_to_list srlSysctl)).
  - vm_compute. left.
  - vm_compute. eexists. reflexivity.
Defined.

Lemma run_initialised :
  ∃ s2, Init (Host0 := fake_host) initialised (cfg initialised) []
          (map_to_list srlTypes) (map_to_list srlSysctl) = Ret (s2, None).
Proof. eexists. by vm_compute. Defined.

Lemma Init_again_witness :
  ∃ s2, run node_cfg = Ret (initialised, None)
        ∧ Init (Host0 := fake_host) initialised (cfg initialised) []
            (map_to_list srlTypes) (map_to_list srlSysctl) = Ret (s2, None)
        ∧ Sysctls (cfg s2) = Sysctls (cfg initialised)
        ∧ ∃ mounts, (2 ≤ length mounts)%nat ∧ Binds (cfg s2) = mounts ++ mounts.
Proof.
  destruct run_initialised as [s2 H2]. exists s2.
  assert (H1 : run node_cfg = Ret (initialised, None)) by by vm_compute.
  destruct (Init_again (Host0 := fake_host) (node node_cfg) node_cfg []
              (map_to_list srlTypes) (map_to_list srlSysctl) initialised
              (map_to_list srlTypes) (map_to_list srlSysctl) s2)
    as (_ & _ & _ & Hsys & mounts & Hlen & _ & Hb2);
    [unfold range_order; reflexivity | unfold range_order; reflexivity
     | exact H1 | exact H2 |].
  split; [exact H1 |]. split; [exact H2 |]. split; [exact Hsys |].
  exists mounts. split; [exact Hlen | exact Hb2].
Defined.

Lemma Init_options_witness :
  returned_cfg (Init (Host0 := fake_host) (node node_cfg) node_cfg
                  [WithMgmtNet 0%nat; WithRuntime tt]
                  (map_to_list srlTypes) (map_to_list srlSysctl))
  = returned_cfg (run node_cfg).
Proof.
  apply (Init_options (Host0 := fake_host) (node node_cfg) node_cfg
           [WithMgmtNet 0%nat; WithRuntime tt]).
  repeat constructor.
Defined.

Lemma Init_selects_topology_witness :
  ∃ s' file, run node_cfg = Ret (s', None)
             ∧ (NodeType (cfg s'), file) ∈ srlTypes_entries.
Proof.
  destruct InitExamples.run_node_cfg as [s' Hs'].
  destruct (Init_selects_topology (Host0 := fake_host) (node node_cfg) node_cfg []
              (map_to_list srlTypes) (map_to_list srlSysctl) s' Hs')
    as [(file & Hin & _) _].
  exists s', file. split; [exact Hs' | exact Hin].
Defined.

Lemma Ready_booted : ∃ w', Ready 121 None (node node_cfg) (world booted) = Some (w', None).
Proof. eexists. by vm_compute. Defined.

Lemma Ready_nil_means_ready_witness :
  ∃ w' w w1 r1,
    Ready 121 None (node node_cfg) (world booted) = Some (w', None)
    ∧ Exec tt (Ready_ctx None (world booted)) "clab-lab-srl1" mgmtServerRdyCmd w = (w1, r1)
    ∧ Contains (stdout r1) "running" = true.
Proof.
  destruct Ready_booted as [w' Hw'].
  destruct (Ready_nil_means_ready 121 None (node node_cfg) (world booted) w' Hw')
    as (w & w1 & r1 & _ & _ & _ & He1 & _ & _ & Hout & _).
  exists w', w, w1, r1. split; [exact Hw' |]. split; [exact He1 | exact Hout].
Defined.

Lemma Ready_starting :
  ∃ w' e, Ready 121 None (node node_cfg) (world starting) = Some (w', Some e).
Proof. do 2 eexists. by vm_compute. Defined.

Lemma Ready_runs_status_commands_only_witness :
  ∃ w' e calls,
    Ready 121 None (node node_cfg) (world starting) = Some (w', Some e)
    ∧ execs w' = calls ∧ (length calls ≤ 240)%nat.
Proof.
  destruct Ready_starting as (w' & e & Hw').
  destruct (Ready_runs_status_commands_only 121 None (node node_cfg) (world starting)
              w' (Some e) Hw') as (calls & Hx & _ & Hlen & _).
  exists w', e, calls. split; [exact Hw' |]. split; [exact Hx | exact Hlen].
Defined.

Lemma Ready_cancelled_at_entry_witness :
  Ready 1 (Some 0) (node node_cfg) (world ext0)
  = Some (logf DebugLevel "Waiting for SR Linux node %q to boot..." ["srl1"] (world ext0),
          Some "timed out waiting for SR Linux node srl1 to boot: <nil>").
Proof.
  apply (Ready_cancelled_at_entry 0 0 (node node_cfg) (world ext0)). simpl. lia.
Defined.

Lemma Ready_timeout_cause_witness :
  ∃ w' e v cmd v' r,
    Ready 121 None (node node_cfg) (world starting) = Some (w', Some e)
    ∧ Exec tt (Ready_ctx None (world starting)) "clab-lab-srl1" cmd v = (v', r)
    ∧ execs w' = execs v'
    ∧ (∀ err, exec_err r = Some err →
         e = "timed out waiting for SR Linux node srl1 to boot: " +:+ err).
Proof.
  destruct Ready_starting as (w' & e & Hw').
  destruct (Ready_timeout_cause 121 None (node node_cfg) (world starting) w' e Hw')
    as [[Hx _]|(v & cmd & v' & r & He & Hx & _ & Herr & _)].
  - exfalso. revert Hw' Hx. vm_compute. intros [= <- _]. vm_compute. done.
  - exists w', e, v, cmd, v', r.
    split; [exact Hw' |]. split; [exact He |]. split; [exact Hx | exact Herr].
Defined.

Lemma bootstrap_errors_pass_through_witness :
  (addDefaultConfig_after_ready None (node node_cfg) (world refusing_transfer)).2
  = Some "container stopped".
Proof.
  pose (x := Exec tt None "clab-lab-srl1" (transferCmd (rendered node_cfg))
               (logf DebugLevel ("Node %q additional config:" +:+ nl +:+ "%s")
                     ["srl1"; rendered node_cfg] (world refusing_transfer))).
  destruct (bootstrap_errors_pass_through None (node node_cfg) (world refusing_transfer)
              x.1 x.2) as [Hfail _]; [apply surjective_pairing |].
  destruct (Hfail "container stopped") as [-> _]; by vm_compute.
Defined.

Lemma addDefaultConfig_not_ready_witness :
  ∃ w' e, addDefaultConfig 1 (Some 0) (node node_cfg) (world booted) = Some (w', Some e)
          ∧ execs w' = [].
Proof.
  assert (Hr : ∃ w' e, Ready 1 (Some 0) (node node_cfg) (world booted) = Some (w', Some e)
                       ∧ execs w' = []).
  { do 2 eexists. by vm_compute. }
  destruct Hr as (w' & e & Hr & Hx).
  destruct (addDefaultConfig_not_ready 1 (Some 0) (node node_cfg) (world booted) w' e Hr)
    as [Hadd _].
  exists w', e. split; [exact Hadd | exact Hx].
Defined.

Lemma PostDeploy_bootstraps_ready_node_witness :
  ∃ w', PostDeploy 1 None (node node_cfg) (world bootstrapping) = Some (w', None)
        ∧ length (execs w') = 4%nat.
Proof.
  edestruct (PostDeploy_bootstraps_ready_node (Host0 := fake_host) 0 None (node node_cfg)
               (world bootstrapping)) as [Hpost Hx].
  1-3: by vm_compute.
  1: by vm_compute.
  1-3: by vm_compute.
  1: by vm_compute.
  1-3: by vm_compute.
  1: by vm_compute.
  1: by vm_compute.
  1: by vm_compute.
  1: by vm_compute.
  eexists. split; [exact Hpost |]. by vm_compute.
Defined.

Lemma topology_file_failures_witness :
  generateSRLTopologyFile (Host0 := fake_host) "ixr6" "/lab/srl1" 0 (world dry)
  = (set_ext dry (world dry), Some "unexpected EOF").
Proof.
  destruct (topology_file_failures (Host0 := fake_host) "ixr6" "/lab/srl1" 0 (world dry))
    as (_ & Hrest).
  destruct (Hrest tt dry []) as [Hrand _]; [by vm_compute |].
  apply Hrand. by vm_compute.
Defined.

Lemma createSRLFiles_startup_config_witness :
  outside (createSRLFiles (Host0 := fake_host) startup_cfg (world ext0))
  = (topology_written, Some "no such file").
Proof.
  destruct (createSRLFiles_startup_config (Host0 := fake_host) startup_cfg (world ext0)
              ext0 topology_written) as [_ Hstartup].
  - left. split; reflexivity.
  - intros [e n l x]. simpl. intros ->. by vm_compute.
  - destruct (Hstartup ltac:(by vm_compute) topology_written EmptyString) as [Hread _].
    apply Hread. by vm_compute.
Defined.

Lemma createSRLFiles_stops_early_witness :
  outside (createSRLFiles (Host0 := fake_host) licensed_cfg (world ext0))
  = (ext0, Some "CopyFile src /licenses/srl.key -> dst /lab/srl1/license.key failed no such file").
Proof.
  destruct (createSRLFiles_stops_early (Host0 := fake_host) licensed_cfg (world ext0))
    as [Hcopy _].
  rewrite (Hcopy ltac:(by vm_compute) ext0 "no such file" ltac:(by vm_compute)).
  by vm_compute.
Defined.

Lemma PreDeploy_uses_stored_certificate_witness :
  let result := PreDeploy (CsrTpl := unit) (node node_cfg) "lab" "/lab/ca" "/lab/ca/root"
                          (world with_certs) in
  TLSCert (cfg result.1.1) = "stored-cert" ∧ TLSKey (cfg result.1.1) = "stored-key".
Proof.
  destruct (PreDeploy_uses_stored_certificate (CsrTpl := unit) (node node_cfg)
              "lab" "/lab/ca" "/lab/ca/root" (world with_certs)
              with_certs (mkCerts "csr" "stored-cert" "stored-key"))
    as (_ & Hcert & Hkey); [by vm_compute |].
  split; [exact Hcert | exact Hkey].
Defined.

Lemma PreDeploy_agents_witness :
  ∃ w' e a err,
    PreDeploy_finish (Host0 := fake_host) (node agents_cfg)
      (mkCerts "csr" "cert" "key") (world ext0)
    = (upd_cfg (set_TLSKey "key") (upd_cfg (set_TLSCert "cert") (node agents_cfg)),
       w', Some e)
    ∧ a ∈ ["/agents/ndk.yml"]
    ∧ e = "agent copy src " +:+ a +:+ " -> dst "
          +:+ filepath_Join (Host := fake_host) ["/lab/srl1/config/appmgr/"; a]
          +:+ " failed " +:+ err.
Proof.
  pose (x := copy_agents (Host0 := fake_host) "/lab/srl1/config/appmgr/"
               ["/agents/ndk.yml"] (world ext0)).
  destruct (PreDeploy_agents (Host0 := fake_host) (node agents_cfg)
              (mkCerts "csr" "cert" "key") (world ext0)) as [_ Hfail].
  destruct (Hfail ["/agents/ndk.yml"] x.1
              "agent copy src /agents/ndk.yml -> dst /lab/srl1/config/appmgr///agents/ndk.yml failed no such file")
    as (Hrun & _ & a & err & Hin & He); [reflexivity | done | by vm_compute |].
  eexists _, _, a, err. split; [exact Hrun |]. split; [exact Hin | exact He].
Defined.

End MoreExamples.
